(** * CLIP embedding service ([clip_api.py]): a shallow embedding

    The service is one FastAPI application with three routes.  Its own code
    is input normalisation (three input kinds), two layers of exception
    handling and the shape of the JSON answers; the encoder, the image
    library and the HTTP client are collaborators whose results are taken
    as given.

    Layout of this file:
    - [PyStr]      Python [str] operations used by the source
                   ([in], [split], [partition], decimal formatting);
    - [Base64]     [base64.b64decode] in its default, non validating mode;
    - [exn], [World], [M]   exceptions, the world (stdout, network) and
                   the state-and-exception monad the handlers run in;
    - [Service]    the handlers of [clip_api.py], over a [Runtime] that
                   packages the collaborators;
    - theorems about the handlers. *)

From Stdlib Require Import String Ascii List ZArith NArith Bool Lia.
From Stdlib Require Import DecimalString.
Import ListNotations.

#[local] Open Scope string_scope.
#[local] Open Scope list_scope.
#[local] Open Scope Z_scope.

(** String concatenation (Python's [+] on [str], and the pieces of an
    f-string); [++] is kept for lists. *)
Infix "+:+" := String.append (right associativity, at level 60).

(* ===================================================================== *)
(** ** Python strings *)
(* ===================================================================== *)

(** A Python [str] is modelled by [string]: a character is its code point,
    code points below 128 are the ASCII characters, and a code point of 128
    or more stands for any non-ASCII character (the source never looks at
    which one: [split] and [in] compare them for equality only, and
    [b64decode] rejects them all alike). *)
Module PyStr.

Definition ord (c : ascii) : Z := Z.of_N (N_of_ascii c).

Definition isascii (s : string) : bool :=
  forallb (fun c => ord c <? 128) (list_ascii_of_string s).

(** [s.startswith(p)]. *)
Fixpoint startswith (p s : string) : bool :=
  match p, s with
  | EmptyString, _ => true
  | String a p', String b s' => Ascii.eqb a b && startswith p' s'
  | String _ _, EmptyString => false
  end.

(** [s[n:]]. *)
Fixpoint drop (n : nat) (s : string) : string :=
  match n, s with
  | O, _ => s
  | S n', String _ s' => drop n' s'
  | S _, EmptyString => EmptyString
  end.

(** [sep in s]: some position of [s] starts a copy of [sep]. *)
Fixpoint contains (sep s : string) : bool :=
  startswith sep s ||
  match s with
  | EmptyString => false
  | String _ s' => contains sep s'
  end.

(** [s.partition(sep)] when [sep] is found: the text before the first
    (leftmost) copy of [sep] and the text after it; [None] when [sep] does
    not occur. *)
Fixpoint partition (sep s : string) : option (string * string) :=
  if startswith sep s then Some (EmptyString, drop (String.length sep) s)
  else
    match s with
    | EmptyString => None
    | String c s' =>
        match partition sep s' with
        | Some (a, b) => Some (String c a, b)
        | None => None
        end
    end.

(** [s.split(sep)] for a non-empty [sep]: cut at the leftmost copy of
    [sep], then go on in the text after it, until no copy is left.  Each
    cut consumes at least one character, so [length s] rounds suffice. *)
Fixpoint split_rounds (rounds : nat) (sep s : string) : list string :=
  match rounds with
  | O => [s]
  | S rounds' =>
      match partition sep s with
      | None => [s]
      | Some (a, b) => a :: split_rounds rounds' sep b
      end
  end.

Definition split (s sep : string) : list string :=
  split_rounds (String.length s) sep s.

(** [c in p] for a character [c]. *)
Fixpoint has_char (c : ascii) (p : string) : bool :=
  match p with
  | EmptyString => false
  | String x p' => Ascii.eqb x c || has_char c p'
  end.

(** [str(n)] for an integer. *)
Definition str_of_Z (n : Z) : string := NilZero.string_of_int (Z.to_int n).

Definition str_of_nat (n : nat) : string := str_of_Z (Z.of_nat n).

(** [sep.join(pieces)]. *)
Fixpoint join (sep : string) (pieces : list string) : string :=
  match pieces with
  | [] => EmptyString
  | piece :: rest =>
      match rest with
      | [] => piece
      | _ :: _ => piece +:+ sep +:+ join sep rest
      end
  end.

(** [chr(c)] for a code point below 256. *)
Definition chr (c : Z) : ascii := ascii_of_N (Z.to_N c).

End PyStr.

(* ===================================================================== *)
(** ** Python exceptions *)
(* ===================================================================== *)

(** Every exception the source sees is an instance of [Exception].  The
    handlers distinguish none of them; what they use is [str(e)].
    [HTTPException] is FastAPI's (Starlette's): it keeps [status_code] and
    [detail].  [PyError] is any other exception, with its class name and
    message. *)
Inductive exn : Type :=
| HTTPException (status_code : Z) (detail : string)
| PyError (cls : string) (msg : string).

(** [str(e)].  Starlette's [HTTPException.__str__] is
    [f"{self.status_code}: {self.detail}"]; the other exceptions print
    their message. *)
Definition str_exn (e : exn) : string :=
  match e with
  | HTTPException status_code detail =>
      PyStr.str_of_Z status_code +:+ ": " +:+ detail
  | PyError _ msg => msg
  end.

(** A call that returns or raises. *)
Inductive result (A : Type) : Type :=
| Ok (a : A)
| Raise (e : exn).
Arguments Ok {A} a.
Arguments Raise {A} e.

Definition bytes := list Z.

(* ===================================================================== *)
(** ** [base64.b64decode] *)
(* ===================================================================== *)

(** [base64.b64decode(s)] with its defaults ([altchars=None],
    [validate=False]), as CPython 3.11 and later have it: a [str] argument
    is encoded to ASCII ([ValueError] when it has a non-ASCII character),
    then [binascii.a2b_base64] runs in its non strict mode. *)
Module Base64.

Definition BASE64_PAD : Z := 61.   (* '=' *)

(** [table_a2b_base64]: the 6-bit value of a base64 digit; 0 for ['=']
    (the loop tests for it before it reads the table); 255 (the C
    table's [-1] as an [unsigned char]) for every other byte. *)
Definition table_a2b_base64 (c : Z) : Z :=
  if (65 <=? c) && (c <=? 90) then c - 65            (* A-Z *)
  else if (97 <=? c) && (c <=? 122) then c - 97 + 26  (* a-z *)
  else if (48 <=? c) && (c <=? 57) then c - 48 + 52   (* 0-9 *)
  else if c =? 43 then 62                             (* + *)
  else if c =? 47 then 63                             (* / *)
  else if c =? 61 then 0                              (* PAD->0 *)
  else 255.

Definition u8 (x : Z) : Z := Z.land x 255.

Definition binascii_Error (msg : string) : exn := PyError "binascii.Error" msg.

(** What [a2b_base64] does once the input is used up. *)
Definition a2b_finish (quad_pos : Z) (bin_data : bytes) : result bytes :=
  if quad_pos =? 0 then Ok bin_data
  else if quad_pos =? 1 then
    Raise (binascii_Error
      ("Invalid base64-encoded string: number of data characters ("
       +:+ PyStr.str_of_Z (Z.of_nat (List.length bin_data) / 3 * 4 + 1)
       +:+ ") cannot be 1 more than a multiple of 4"))
  else Raise (binascii_Error "Incorrect padding").

(** The loop of [a2b_base64] over the input bytes, with its locals
    [quad_pos], [leftchar] and [pads]; [bin_data] is the output written so
    far. *)
Fixpoint a2b_loop (ascii_data : bytes) (quad_pos leftchar pads : Z)
         (bin_data : bytes) : result bytes :=
  match ascii_data with
  | [] => a2b_finish quad_pos bin_data
  | this_ch :: rest =>
      if this_ch =? BASE64_PAD then
        (* [quad_pos >= 2 && quad_pos + ++pads >= 4]: [pads] is only
           incremented when the left operand holds *)
        if (2 <=? quad_pos) && (4 <=? quad_pos + (pads + 1)) then
          Ok bin_data                                   (* goto done *)
        else
          a2b_loop rest quad_pos leftchar
                   (if 2 <=? quad_pos then pads + 1 else pads) bin_data
      else
        let v := table_a2b_base64 this_ch in
        if 64 <=? v then
          a2b_loop rest quad_pos leftchar pads bin_data   (* continue *)
        else if quad_pos =? 0 then
          a2b_loop rest 1 v 0 bin_data
        else if quad_pos =? 1 then
          a2b_loop rest 2 (Z.land v 15) 0
                   (bin_data ++ [u8 (Z.lor (Z.shiftl leftchar 2) (Z.shiftr v 4))])
        else if quad_pos =? 2 then
          a2b_loop rest 3 (Z.land v 3) 0
                   (bin_data ++ [u8 (Z.lor (Z.shiftl leftchar 4) (Z.shiftr v 2))])
        else
          a2b_loop rest 0 0 0
                   (bin_data ++ [u8 (Z.lor (Z.shiftl leftchar 6) v)])
  end.

Definition a2b_base64 (data : bytes) : result bytes :=
  a2b_loop data 0 0 0 [].

(** [s.encode('ascii')] of an ASCII string. *)
Definition encode_ascii (s : string) : bytes :=
  map PyStr.ord (list_ascii_of_string s).

Definition b64decode (s : string) : result bytes :=
  if PyStr.isascii s then a2b_base64 (encode_ascii s)
  else Raise (PyError "ValueError"
                "string argument should contain only ASCII characters").

(** The bytes [a2b_base64] looks at: base64 digits and ['=']. *)
Definition significant (c : Z) : bool :=
  (c =? BASE64_PAD) || (table_a2b_base64 c <? 64).

(** The base64 digits alone. *)
Definition is_digit (c : Z) : bool :=
  negb (c =? BASE64_PAD) && (table_a2b_base64 c <? 64).

(** The number of base64 digits of the input. *)
Definition digits (data : bytes) : Z :=
  Z.of_nat (List.length (filter is_digit data)).

(** [s] without the characters [a2b_base64] skips. *)
Definition keep_significant (s : string) : string :=
  string_of_list_ascii
    (filter (fun c => significant (PyStr.ord c)) (list_ascii_of_string s)).

(** A value a byte can take. *)
Definition is_byte (b : Z) : Prop := 0 <= b < 256.

(** [table_b2a_base64]: the base64 digit of a 6-bit value,
    ["ABC...XYZabc...xyz0123456789+/"]. *)
Definition table_b2a_base64 (v : Z) : Z :=
  if v <? 26 then 65 + v
  else if v <? 52 then 97 + (v - 26)
  else if v <? 62 then 48 + (v - 52)
  else if v =? 62 then 43
  else 47.

(** [binascii.b2a_base64(data, newline=False)], the encoding a client
    applies to image bytes (RFC 4648, section 4): three bytes give four
    digits; a last group of one or two bytes gives two or three digits and
    is filled up with ['=']. *)
Fixpoint b2a_base64 (bin_data : bytes) : bytes :=
  match bin_data with
  | [] => []
  | [b0] =>
      [ table_b2a_base64 (Z.shiftr b0 2);
        table_b2a_base64 (Z.shiftl (Z.land b0 3) 4);
        BASE64_PAD; BASE64_PAD ]
  | [b0; b1] =>
      [ table_b2a_base64 (Z.shiftr b0 2);
        table_b2a_base64 (Z.lor (Z.shiftl (Z.land b0 3) 4) (Z.shiftr b1 4));
        table_b2a_base64 (Z.shiftl (Z.land b1 15) 2);
        BASE64_PAD ]
  | b0 :: b1 :: b2 :: rest =>
      table_b2a_base64 (Z.shiftr b0 2)
      :: table_b2a_base64 (Z.lor (Z.shiftl (Z.land b0 3) 4) (Z.shiftr b1 4))
      :: table_b2a_base64 (Z.lor (Z.shiftl (Z.land b1 15) 2) (Z.shiftr b2 6))
      :: table_b2a_base64 (Z.land b2 63)
      :: b2a_base64 rest
  end.

(** [base64.b64encode(data).decode('ascii')]. *)
Definition b64encode (data : bytes) : string :=
  string_of_list_ascii (map PyStr.chr (b2a_base64 data)).

(** Does the encoding of [data] end with ['=']: is the last group short? *)
Fixpoint ends_padded (data : bytes) : bool :=
  match data with
  | [] => false
  | [_] => true
  | [_; _] => true
  | _ :: _ :: _ :: rest => ends_padded rest
  end.

(** Digits, then at most two ['='] and nothing else. *)
Fixpoint digits_then_pads (data : bytes) : bool :=
  match data with
  | [] => true
  | c :: rest =>
      if is_digit c then digits_then_pads rest
      else forallb (fun c' => c' =? BASE64_PAD) data
           && Nat.leb (List.length data) 2
  end.

(** Base64 text as RFC 4648, section 4, writes it: digits in groups of
    four, the last group filled up with one or two ['=']. *)
Definition well_formed (s : string) : bool :=
  PyStr.isascii s
  && digits_then_pads (encode_ascii s)
  && Nat.eqb (String.length s mod 4) 0.

(** A 6-bit value. *)
Definition sextet (v : Z) : bool := (0 <=? v) && (v <? 64).

(** [P] holds of 0, ..., [n - 1]. *)
Fixpoint all_below (n : nat) (P : Z -> bool) : bool :=
  match n with
  | O => true
  | S k => P (Z.of_nat k) && all_below k P
  end.

End Base64.

(* ===================================================================== *)
(** ** The world and the monad of the handlers *)
(* ===================================================================== *)

(** [requests.Response], the fields the source and [raise_for_status]
    read. *)
Module Requests.

Record Response : Type := {
  status_code : Z;
  reason : string;
  url : string;
  content : bytes
}.

Definition HTTPError (msg : string) : exn :=
  PyError "requests.exceptions.HTTPError" msg.

(** [Response.raise_for_status()]: an [HTTPError] for a status from 400 to
    599, nothing otherwise. *)
Definition raise_for_status (r : Response) : result unit :=
  if (400 <=? status_code r) && (status_code r <? 500) then
    Raise (HTTPError (PyStr.str_of_Z (status_code r) +:+ " Client Error: "
                      +:+ reason r +:+ " for url: " +:+ url r))
  else if (500 <=? status_code r) && (status_code r <? 600) then
    Raise (HTTPError (PyStr.str_of_Z (status_code r) +:+ " Server Error: "
                      +:+ reason r +:+ " for url: " +:+ url r))
  else Ok tt.

End Requests.

(** An outbound HTTP request, as the process sent it: the method, the URL
    and the timeout in seconds. *)
Record Fetch : Type := {
  fetch_method : string;
  fetch_url : string;
  fetch_timeout : Z
}.

(** What lies outside the process and what it writes to.
    - [network url t] is how [requests.get(url, timeout=t)] would end now:
      with a response, or with an exception (refused URL, connection
      error, timeout, ...);
    - [wire url t] lists the URLs that call would request on the way, in
      order: none when the library refuses the URL before it sends
      anything, the URL itself, and the targets of the redirects it
      follows;
    - [fetches] records the requests sent; [stdout] the lines printed;
    - [object_ids] are the addresses the interpreter gives to the objects it
      creates, in order of creation, and [allocated] counts the objects
      created so far: the address of an object shows in its [repr]. *)
Record World : Type := {
  stdout : list string;
  fetches : list Fetch;
  network : string -> Z -> result Requests.Response;
  wire : string -> Z -> list string;
  object_ids : nat -> Z;
  allocated : nat
}.

(** The requests [requests.get(url, timeout=timeout)] sends in [w]: a GET
    of each URL on its way, each with the timeout given. *)
Definition sent_by_get (url : string) (timeout : Z) (w : World) : list Fetch :=
  map (fun u => {| fetch_method := "GET";
                   fetch_url := u;
                   fetch_timeout := timeout |})
      (wire w url timeout).

(** An [io.BytesIO] object: its contents and its address. *)
Record Stream : Type := {
  getvalue : bytes;
  id : Z
}.

(** A computation reads and writes the world, and returns or raises.  What
    was written before an exception stays written. *)
Definition M (A : Type) : Type := World -> result A * World.

Definition ret {A} (a : A) : M A := fun w => (Ok a, w).

Definition raise {A} (e : exn) : M A := fun w => (Raise e, w).

Definition bind {A B} (m : M A) (k : A -> M B) : M B :=
  fun w =>
    match m w with
    | (Ok a, w') => k a w'
    | (Raise e, w') => (Raise e, w')
    end.

(** [try: m  except Exception as e: handler e]. *)
Definition try_except {A} (m : M A) (handler : exn -> M A) : M A :=
  fun w =>
    match m w with
    | (Ok a, w') => (Ok a, w')
    | (Raise e, w') => handler e w'
    end.

(** A call that touches nothing of the world. *)
Definition lift {A} (r : result A) : M A := fun w => (r, w).

Notation "x <- m ;; k" := (bind m (fun x => k))
  (at level 61, m at next level, right associativity).
Notation "m ;;; k" := (bind m (fun _ => k))
  (at level 61, right associativity).

(** [print(line)]. *)
Definition print (line : string) : M unit :=
  fun w => (Ok tt, {| stdout := stdout w ++ [line];
                      fetches := fetches w;
                      network := network w;
                      wire := wire w;
                      object_ids := object_ids w;
                      allocated := allocated w |}).

(** [requests.get(url, timeout=timeout)]. *)
Definition requests_get (url : string) (timeout : Z) : M Requests.Response :=
  fun w => (network w url timeout,
            {| stdout := stdout w;
               fetches := fetches w ++ sent_by_get url timeout w;
               network := network w;
               wire := wire w;
               object_ids := object_ids w;
               allocated := allocated w |}).

(** [io.BytesIO(initial_bytes)]: a new object, at the next address. *)
Definition BytesIO (initial_bytes : bytes) : M Stream :=
  fun w => (Ok {| getvalue := initial_bytes;
                  id := object_ids w (allocated w) |},
            {| stdout := stdout w;
               fetches := fetches w;
               network := network w;
               wire := wire w;
               object_ids := object_ids w;
               allocated := S (allocated w) |}).

(** [l[i]] on a list. *)
Definition getitem {A} (l : list A) (i : nat) : result A :=
  match nth_error l i with
  | Some x => Ok x
  | None => Raise (PyError "IndexError" "list index out of range")
  end.

(* ===================================================================== *)
(** ** The collaborators *)
(* ===================================================================== *)

(** The pretrained model and the image library, as the process holds them
    after [clip.load("ViT-B/32", device=device)].  They are functions of
    their argument: the model is frozen and inference runs under
    [torch.no_grad()].
    - [tokenize text] is [clip.tokenize([text]).to(device)];
    - [encode_text x] is [model.encode_text(x).cpu().numpy().tolist()], the
      rows of the output tensor; [encode_image] likewise;
    - [Image_open fp] is [Image.open(fp)] on a [BytesIO] object; what it
      raises may name the object, address included;
    - [preprocess image] is [preprocess(image).unsqueeze(0).to(device)]. *)
Record Runtime : Type := {
  float : Type;
  tokens : Type;
  image : Type;
  tensor : Type;
  cuda_is_available : bool;
  tokenize : string -> result tokens;
  encode_text : tokens -> result (list (list float));
  Image_open : Stream -> result image;
  preprocess : image -> result tensor;
  encode_image : tensor -> result (list (list float))
}.

(** JSON values, as the handlers build them from Python dicts. *)
#[warnings="-register-all"] Inductive value (F : Type) : Type :=
| VStr (s : string)
| VInt (n : Z)
| VFloats (l : list F)
| VDict (d : list (string * value F)).
Arguments VStr {F} s.
Arguments VInt {F} n.
Arguments VFloats {F} l.
Arguments VDict {F} d.

Definition dict (F : Type) : Type := list (string * value F).

(** [d.get(key)]. *)
Fixpoint dict_get {F} (d : dict F) (key : string) : option (value F) :=
  match d with
  | [] => None
  | (k, v) :: d' => if String.eqb k key then Some v else dict_get d' key
  end.

(** What the client receives. *)
Record HttpResponse (F : Type) : Type := {
  status : Z;
  body : value F
}.
Arguments status {F} h.
Arguments body {F} h.

(* ===================================================================== *)
(** ** [clip_api.py] *)
(* ===================================================================== *)

Inductive InputType : Type := text | image_url | image_base64.

Record EmbeddingRequest : Type := {
  type : InputType;
  input : string
}.

Section Service.

Variable R : Runtime.

Let float : Type := float R.

Definition device : string :=
  if cuda_is_available R then "cuda" else "cpu".

Definition download_image (url : string) : M bytes :=
  try_except
    (response <- requests_get url 10;;
     lift (Requests.raise_for_status response);;;
     ret (Requests.content response))
    (fun e =>
       raise (HTTPException 422 ("Error downloading image: " +:+ str_exn e))).

(** The first two lines of the [try] block of [process_base64_image]: the
    text it hands to [b64decode]. *)
Definition base64_payload (base64_string : string) : result string :=
  if PyStr.contains "base64," base64_string
  then getitem (PyStr.split base64_string "base64,") 1
  else Ok base64_string.

Definition process_base64_image (base64_string : string) : M bytes :=
  try_except
    (base64_string <- lift (base64_payload base64_string);;
     lift (Base64.b64decode base64_string))
    (fun e =>
       raise (HTTPException 422
                ("Error processing base64 image: " +:+ str_exn e))).

Definition get_embeddings (request : EmbeddingRequest) : M (dict float) :=
  try_except
    (embedding <-
       match type request with
       | text =>
           text_input <- lift (tokenize R (input request));;
           embedding <- lift (encode_text R text_input);;
           embedding <- lift (getitem embedding 0);;
           print ("Embedding length: "
                  +:+ PyStr.str_of_nat (List.length embedding));;;
           ret embedding
       | image_url =>
           image_bytes <- download_image (input request);;
           fp <- BytesIO image_bytes;;
           image <- lift (Image_open R fp);;
           image_input <- lift (preprocess R image);;
           embedding <- lift (encode_image R image_input);;
           embedding <- lift (getitem embedding 0);;
           print ("Embedding length: "
                  +:+ PyStr.str_of_nat (List.length embedding));;;
           ret embedding
       | image_base64 =>
           image_bytes <- process_base64_image (input request);;
           fp <- BytesIO image_bytes;;
           image <- lift (Image_open R fp);;
           image_input <- lift (preprocess R image);;
           embedding <- lift (encode_image R image_input);;
           embedding <- lift (getitem embedding 0);;
           print ("Embedding length: "
                  +:+ PyStr.str_of_nat (List.length embedding));;;
           ret embedding
       end;;
     ret [ ("status", VStr "success");
           ("embeddings", VFloats embedding);
           ("embedding_dimension", VInt (Z.of_nat (List.length embedding))) ])
    (fun e => raise (HTTPException 422 (str_exn e))).

Definition health_check : M (dict float) :=
  ret [ ("status", VStr "healthy");
        ("device", VStr device);
        ("model", VStr "ViT-B/32") ].

Definition get_examples : M (dict float) :=
  ret [ ("text_example",
         VDict [ ("type", VStr "text"); ("input", VStr "a photo of a cat") ]);
        ("image_url_example",
         VDict [ ("type", VStr "image_url");
                 ("input", VStr "https://example.com/cat.jpg") ]);
        ("image_base64_example",
         VDict [ ("type", VStr "image_base64");
                 ("input", VStr "base64_encoded_image_string") ]) ].

(** *** The routes, as FastAPI serves them

    A handler's return value is sent with status 200.  An [HTTPException]
    is sent with its own status code and the body [{"detail": detail}].
    Any other exception that leaves a handler becomes a 500 answer. *)

Inductive HttpRequest : Type :=
| POST_embeddings (request : EmbeddingRequest)
| GET_health
| GET_examples.

Definition respond (r : result (dict float)) : HttpResponse float :=
  match r with
  | Ok d => {| status := 200; body := VDict d |}
  | Raise (HTTPException status_code detail) =>
      {| status := status_code; body := VDict [("detail", VStr detail)] |}
  | Raise (PyError _ _) =>
      {| status := 500; body := VStr "Internal Server Error" |}
  end.

Definition route (q : HttpRequest) : M (dict float) :=
  match q with
  | POST_embeddings request => get_embeddings request
  | GET_health => health_check
  | GET_examples => get_examples
  end.

Definition app (q : HttpRequest) (w : World) : HttpResponse float * World :=
  let (r, w') := route q w in (respond r, w').

(** A sequence of requests served one after the other; between two
    requests the world outside may change ([env] says how: the network
    moves on, other programs write to the terminal). *)
Fixpoint serve_all (env : World -> World) (qs : list HttpRequest) (w : World)
  : list (HttpResponse float) * World :=
  match qs with
  | [] => ([], w)
  | q :: qs' =>
      let (a, w') := app q w in
      let (rest, w'') := serve_all env qs' (env w') in
      (a :: rest, w'')
  end.

End Service.

(* ===================================================================== *)
(** ** Vocabulary of the statements *)
(* ===================================================================== *)

(** The [try]/[except] of [process_base64_image] around the decoding of a
    given text. *)
Definition decode_or_422 (payload : string) : M bytes :=
  try_except
    (lift (Base64.b64decode payload))
    (fun e =>
       raise (HTTPException 422
                ("Error processing base64 image: " +:+ str_exn e))).

(** Everything after the leftmost ["base64,"]; the whole string when there
    is none. *)
Definition remainder_after_marker (s : string) : string :=
  match PyStr.partition "base64," s with
  | None => s
  | Some (_, rest) => rest
  end.

(** The text between the leftmost ["base64,"] and the next one (up to the
    end when there is no next one); the whole string when there is no
    ["base64,"]. *)
Definition first_segment (s : string) : string :=
  match PyStr.partition "base64," s with
  | None => s
  | Some (_, rest) =>
      match PyStr.partition "base64," rest with
      | None => rest
      | Some (segment, _) => segment
      end
  end.

(** ["data:<mime>;base64,"]. *)
Definition data_url_header (mime : string) : string :=
  "data:" +:+ mime +:+ ";base64,".

(** The world after [requests.get(url, timeout=10)]. *)
Definition after_fetch (url : string) (w : World) : World :=
  {| stdout := stdout w;
     fetches := fetches w ++ sent_by_get url 10 w;
     network := network w;
     wire := wire w;
     object_ids := object_ids w;
     allocated := allocated w |}.

(** The [BytesIO] object created next in [w], and the world after its
    creation. *)
Definition new_stream (b : bytes) (w : World) : Stream :=
  {| getvalue := b; id := object_ids w (allocated w) |}.

Definition after_alloc (w : World) : World :=
  {| stdout := stdout w;
     fetches := fetches w;
     network := network w;
     wire := wire w;
     object_ids := object_ids w;
     allocated := S (allocated w) |}.


(** An input normaliser raises [e] on the input of [request] in [w]. *)
Inductive normaliser_raises (w : World)
  : EmbeddingRequest -> exn -> World -> Prop :=
| download_raises url e w' :
    download_image url w = (Raise e, w') ->
    normaliser_raises w {| type := image_url; input := url |} e w'
| base64_raises s e w' :
    process_base64_image s w = (Raise e, w') ->
    normaliser_raises w {| type := image_base64; input := s |} e w'.

(** An input normaliser returns the bytes [b] on the input of [request] in
    [w]. *)
Inductive normaliser_returns (w : World)
  : EmbeddingRequest -> bytes -> World -> Prop :=
| download_returns url b w' :
    download_image url w = (Ok b, w') ->
    normaliser_returns w {| type := image_url; input := url |} b w'
| base64_returns s b w' :
    process_base64_image s w = (Ok b, w') ->
    normaliser_returns w {| type := image_base64; input := s |} b w'.

(** Opening succeeds or not, and gives the image it gives, by the contents
    of the stream; the address of the stream shows in error messages
    only. *)
Definition opens_by_contents (R : Runtime) : Prop :=
  forall fp1 fp2 image,
    getvalue fp1 = getvalue fp2 ->
    Image_open R fp1 = Ok image ->
    Image_open R fp2 = Ok image.

(** A step of the [try] block of [get_embeddings] raises [e] on [request]
    in [w], all steps before it having returned; the world is then [w'].
    One constructor for each call of the block that can raise. *)
Inductive step_raises (R : Runtime) (w : World)
  : EmbeddingRequest -> exn -> World -> Prop :=
| tokenize_raises t e :
    tokenize R t = Raise e ->
    step_raises R w {| type := text; input := t |} e w
| encode_text_raises t x e :
    tokenize R t = Ok x ->
    encode_text R x = Raise e ->
    step_raises R w {| type := text; input := t |} e w
| text_index_raises t x rows e :
    tokenize R t = Ok x ->
    encode_text R x = Ok rows ->
    getitem rows 0 = Raise e ->
    step_raises R w {| type := text; input := t |} e w
| normaliser_step_raises request e w' :
    normaliser_raises w request e w' ->
    step_raises R w request e w'
| open_raises request b w1 e :
    normaliser_returns w request b w1 ->
    Image_open R (new_stream b w1) = Raise e ->
    step_raises R w request e (after_alloc w1)
| preprocess_raises request b w1 image e :
    normaliser_returns w request b w1 ->
    Image_open R (new_stream b w1) = Ok image ->
    preprocess R image = Raise e ->
    step_raises R w request e (after_alloc w1)
| encode_image_raises request b w1 image x e :
    normaliser_returns w request b w1 ->
    Image_open R (new_stream b w1) = Ok image ->
    preprocess R image = Ok x ->
    encode_image R x = Raise e ->
    step_raises R w request e (after_alloc w1)
| image_index_raises request b w1 image x rows e :
    normaliser_returns w request b w1 ->
    Image_open R (new_stream b w1) = Ok image ->
    preprocess R image = Ok x ->
    encode_image R x = Ok rows ->
    getitem rows 0 = Raise e ->
    step_raises R w request e (after_alloc w1).

(** The answer to a failed request: status 422 and the detail. *)
Definition error_422 (F : Type) (detail : string) : HttpResponse F :=
  {| status := 422; body := VDict [("detail", VStr detail)] |}.

(** The dict [get_embeddings] returns for an embedding. *)
Definition success_body (F : Type) (embedding : list F) : dict F :=
  [ ("status", VStr "success");
    ("embeddings", VFloats embedding);
    ("embedding_dimension", VInt (Z.of_nat (List.length embedding))) ].

(** The dict [health_check] returns. *)
Definition health_body (F : Type) (device : string) : dict F :=
  [ ("status", VStr "healthy");
    ("device", VStr device);
    ("model", VStr "ViT-B/32") ].

(** *** A stand-in runtime and two worlds, for closed examples *)
Module Stub.

Definition starts_like_gif (b : bytes) : bool :=
  match b with
  | c0 :: c1 :: c2 :: _ => (c0 =? 71) && (c1 =? 73) && (c2 =? 70)
  | _ => false
  end.

(** Accepts what starts like a GIF; names the object otherwise. *)
Definition open_gif (fp : Stream) : result bytes :=
  if starts_like_gif (getvalue fp) then Ok (getvalue fp)
  else Raise (PyError "PIL.UnidentifiedImageError"
                ("cannot identify image file <_io.BytesIO object at "
                 +:+ PyStr.str_of_Z (id fp) +:+ ">")).

Definition runtime : Runtime :=
  {| float := Z;
     tokens := bytes;
     image := bytes;
     tensor := bytes;
     cuda_is_available := false;
     tokenize := fun s => Ok (Base64.encode_ascii s);
     encode_text := fun _ => Ok [repeat 0 512];
     Image_open := open_gif;
     preprocess := fun i => Ok i;
     encode_image := fun _ => Ok [repeat 0 512] |}.

(** No host can be reached. *)
Definition offline : World :=
  {| stdout := [];
     fetches := [];
     network := fun _ _ =>
       Raise (PyError "requests.exceptions.ConnectionError"
                "Failed to establish a new connection");
     wire := fun url _ => [url];
     object_ids := fun n => 140000000000000 + 64 * Z.of_nat n;
     allocated := 0 |}.

(** Every URL is answered with the given status and the bytes
    ["GIF89a"]. *)
Definition answering (status_code : Z) (reason : string) : World :=
  {| stdout := [];
     fetches := [];
     network := fun url _ =>
       Ok {| Requests.status_code := status_code;
             Requests.reason := reason;
             Requests.url := url;
             Requests.content := [71; 73; 70; 56; 57; 97] |};
     wire := fun url _ => [url];
     object_ids := fun n => 150000000000000 + 64 * Z.of_nat n;
     allocated := 0 |}.

End Stub.

(** *** The values of [InputType] and the examples *)

(** [t.value] for a member of the enum [InputType(str, Enum)]. *)
Definition InputType_value (t : InputType) : string :=
  match t with
  | text => "text"
  | image_url => "image_url"
  | image_base64 => "image_base64"
  end.

(** [InputType(s)]: the member with value [s], if there is one. *)
Definition InputType_of_value (s : string) : option InputType :=
  if String.eqb s "text" then Some text
  else if String.eqb s "image_url" then Some image_url
  else if String.eqb s "image_base64" then Some image_base64
  else None.

(** The [EmbeddingRequest] built from a JSON object [v] with the fields
    [type] and [input], when [type] is the value of a member of
    [InputType]. *)
Definition request_of_value {F} (v : value F) : option EmbeddingRequest :=
  match v with
  | VDict d =>
      match dict_get d "type", dict_get d "input" with
      | Some (VStr t), Some (VStr i) =>
          match InputType_of_value t with
          | Some ty => Some {| type := ty; input := i |}
          | None => None
          end
      | _, _ => None
      end
  | _ => None
  end.

(** The world after the line [get_embeddings] prints for an embedding of
    [n] elements. *)
Definition after_print (n : nat) (w : World) : World :=
  {| stdout := stdout w ++ ["Embedding length: " +:+ PyStr.str_of_nat n];
     fetches := fetches w;
     network := network w;
     wire := wire w;
     object_ids := object_ids w;
     allocated := allocated w |}.

Example split_two : PyStr.split "a,b,,c" "," = ["a"; "b"; ""; "c"].
Proof. reflexivity. Qed.

Example split_data_url :
  PyStr.split "data:image/png;base64,QUJD" "base64," = ["data:image/png;"; "QUJD"].
Proof. reflexivity. Qed.

Example str_of_422 : PyStr.str_of_Z 422 = "422".
Proof. reflexivity. Qed.

Example b64encode_ABC : Base64.b64encode [65; 66; 67] = "QUJD".
Proof. reflexivity. Qed.

Example b64encode_padded :
  Base64.b64encode [65; 66] = "QUI=" /\ Base64.b64encode [65] = "QQ==".
Proof. split; reflexivity. Qed.

Example b64encode_GIF : Base64.b64encode [71; 73; 70; 56; 57; 97] = "R0lGODlh".
Proof. reflexivity. Qed.

Example join_three : PyStr.join "," ["a"; "b"; ""; "c"] = "a,b,,c".
Proof. reflexivity. Qed.

Example well_formed_texts :
  Base64.well_formed "QUJD" = true
  /\ Base64.well_formed "QUI=" = true
  /\ Base64.well_formed "QQ==" = true
  /\ Base64.well_formed "Q===" = false
  /\ Base64.well_formed "QUJ" = false
  /\ Base64.well_formed "R0lG*ODlh" = false
  /\ Base64.well_formed "not-valid-base64!!" = false.
Proof. repeat split; reflexivity. Qed.

Example b64decode_ABC : Base64.b64decode "QUJD" = Ok [65; 66; 67].
Proof. reflexivity. Qed.

Example b64decode_padded : Base64.b64decode "QUI=" = Ok [65; 66].
Proof. reflexivity. Qed.

Example b64decode_not_valid :
  Base64.b64decode "not-valid-base64!!"
  = Raise (Base64.binascii_Error "Incorrect padding").
Proof. reflexivity. Qed.

Example b64decode_one_extra :
  Base64.b64decode "QUJDR"
  = Raise (Base64.binascii_Error
      "Invalid base64-encoded string: number of data characters (5) cannot be 1 more than a multiple of 4").
Proof. reflexivity. Qed.

(* ===================================================================== *)
(** ** Facts about [in], [partition] and [split] *)
(* ===================================================================== *)

Section PyStrFacts.

Import PyStr.

Lemma append_assoc (a b c : string) : (a +:+ b) +:+ c = a +:+ b +:+ c.
Proof. induction a as [|x a IH]; simpl; [reflexivity | now rewrite IH]. Qed.

Lemma append_length (a b : string) :
  String.length (a +:+ b) = (String.length a + String.length b)%nat.
Proof. induction a as [|x a IH]; simpl; [reflexivity | now rewrite IH]. Qed.

Lemma startswith_append (p s : string) : startswith p (p +:+ s) = true.
Proof.
  induction p as [|x p IH]; simpl; [reflexivity|].
  now rewrite Ascii.eqb_refl, IH.
Qed.

Lemma startswith_inv (p s : string) :
  startswith p s = true -> s = p +:+ drop (String.length p) s.
Proof.
  revert s; induction p as [|x p IH]; intros s H; simpl in *; [reflexivity|].
  destruct s as [|y s]; [discriminate|].
  apply andb_true_iff in H as [Hxy Hps].
  apply Ascii.eqb_eq in Hxy; subst y.
  now rewrite <- (IH s Hps).
Qed.

Lemma drop_append (p s : string) : drop (String.length p) (p +:+ s) = s.
Proof. induction p as [|x p IH]; simpl; [reflexivity | exact IH]. Qed.

(** [partition] cuts the string at a copy of the separator... *)
Lemma partition_Some (sep s a b : string) :
  partition sep s = Some (a, b) -> s = a +:+ sep +:+ b.
Proof.
  revert a b; induction s as [|c s IH]; intros a b H.
  - simpl in H. destruct (startswith sep "") eqn:E; [|discriminate].
    inversion H; subst; simpl. now apply startswith_inv.
  - cbn [partition] in H.
    destruct (startswith sep (String c s)) eqn:E.
    + inversion H; subst; simpl. now apply startswith_inv.
    + destruct (partition sep s) as [[a' b']|] eqn:P; [|discriminate].
      inversion H; subst a b; simpl. now rewrite <- (IH a' b' eq_refl).
Qed.

(** ... and at the leftmost one: no copy starts further left. *)
Lemma partition_leftmost (sep s a b : string) :
  partition sep s = Some (a, b) ->
  forall a' b', s = a' +:+ sep +:+ b' ->
                (String.length a <= String.length a')%nat.
Proof.
  revert a; induction s as [|c s IH]; intros a H a' b' Hs.
  - simpl in H. destruct (startswith sep ""); [|discriminate].
    inversion H; subst; simpl; lia.
  - cbn [partition] in H.
    destruct (startswith sep (String c s)) eqn:E.
    + inversion H; subst; simpl; lia.
    + destruct (partition sep s) as [[a0 b0]|] eqn:P; [|discriminate].
      inversion H; subst a b0; clear H.
      destruct a' as [|c' a'].
      * simpl in Hs. rewrite Hs, startswith_append in E. discriminate.
      * simpl in Hs. inversion Hs; subst c' s.
        specialize (IH a0 eq_refl a' b' eq_refl). simpl; lia.
Qed.

Lemma partition_contains (sep s : string) :
  contains sep s = match partition sep s with Some _ => true | None => false end.
Proof.
  induction s as [|c s IH].
  - simpl. now destruct (startswith sep "").
  - cbn [contains partition].
    destruct (startswith sep (String c s)); [reflexivity|].
    rewrite IH. simpl. now destruct (partition sep s) as [[? ?]|].
Qed.

Lemma startswith_contains (sep s : string) :
  startswith sep s = true -> contains sep s = true.
Proof. intros H. destruct s; cbn [contains]; now rewrite H. Qed.

Lemma contains_append (sep a b : string) : contains sep (a +:+ sep +:+ b) = true.
Proof.
  induction a as [|c a IH].
  - cbn [String.append]. apply startswith_contains, startswith_append.
  - cbn [String.append contains]. rewrite IH. apply orb_true_r.
Qed.

Lemma partition_None (sep s : string) :
  partition sep s = None <-> contains sep s = false.
Proof. rewrite partition_contains. destruct (partition sep s); split; congruence. Qed.

Lemma partition_length (sep s a b : string) :
  partition sep s = Some (a, b) ->
  String.length s = (String.length a + String.length sep + String.length b)%nat.
Proof.
  intros H. rewrite (partition_Some _ _ _ _ H) at 1.
  rewrite !append_length. lia.
Qed.

Section NonEmptySeparator.

Variable sep : string.
Hypothesis sep_nonempty : sep <> "".

Lemma sep_length_pos : (0 < String.length sep)%nat.
Proof. destruct sep; [congruence | simpl; lia]. Qed.

Lemma split_rounds_enough (n m : nat) (s : string) :
  (String.length s <= n)%nat -> (String.length s <= m)%nat ->
  split_rounds n sep s = split_rounds m sep s.
Proof.
  revert m s; induction n as [|n IH]; intros m s Hn Hm.
  - destruct s; [|simpl in Hn; lia].
    destruct m; [reflexivity|]. simpl.
    destruct sep; [congruence | reflexivity].
  - destruct m as [|m].
    + destruct s; [|simpl in Hm; lia]. simpl.
      destruct sep; [congruence | reflexivity].
    + cbn [split_rounds].
      destruct (partition sep s) as [[a b]|] eqn:P; [|reflexivity].
      pose proof (partition_length _ _ _ _ P) as L.
      pose proof sep_length_pos.
      f_equal. apply IH; lia.
Qed.

(** The text before the cut holds no copy of the separator. *)
Lemma partition_before_clean (s a b : string) :
  partition sep s = Some (a, b) -> contains sep a = false.
Proof.
  intros P. destruct (contains sep a) eqn:C; [|reflexivity].
  rewrite partition_contains in C.
  destruct (partition sep a) as [[a1 a2]|] eqn:Pa; [|discriminate].
  pose proof (partition_Some _ _ _ _ Pa) as Ea.
  pose proof (partition_Some _ _ _ _ P) as Es.
  rewrite Ea in Es at 1. rewrite !append_assoc in Es.
  pose proof (partition_leftmost _ _ _ _ P _ _ Es) as L.
  rewrite Ea in L. rewrite !append_length in L.
  pose proof sep_length_pos. lia.
Qed.

(** The equation of [split]: cut once, split what follows. *)
Lemma split_unfold (s : string) :
  split s sep =
  match partition sep s with
  | None => [s]
  | Some (a, b) => a :: split b sep
  end.
Proof.
  unfold split. destruct s as [|c s].
  - simpl. destruct sep; [congruence | reflexivity].
  - cbn [String.length split_rounds].
    destruct (partition sep (String c s)) as [[a b]|] eqn:P; [|reflexivity].
    pose proof (partition_length _ _ _ _ P) as L. cbn [String.length] in L.
    pose proof sep_length_pos.
    f_equal. apply split_rounds_enough; lia.
Qed.

End NonEmptySeparator.

End PyStrFacts.

(* ===================================================================== *)
(** ** Facts about [a2b_base64] *)
(* ===================================================================== *)

Section Base64Facts.

Import Base64.

(** A byte that is neither a digit nor ['='] is skipped: dropping such
    bytes beforehand changes nothing. *)
Lemma a2b_loop_filter (data : bytes) :
  forall quad_pos leftchar pads bin_data,
    a2b_loop (filter significant data) quad_pos leftchar pads bin_data
    = a2b_loop data quad_pos leftchar pads bin_data.
Proof.
  induction data as [|c data IH]; intros q l p out; [reflexivity|].
  cbn [filter]. unfold significant at 1.
  destruct (c =? BASE64_PAD) eqn:Epad.
  - cbn [orb a2b_loop]. rewrite Epad.
    destruct ((2 <=? q) && (4 <=? q + (p + 1))); [reflexivity | apply IH].
  - cbn [orb]. destruct (table_a2b_base64 c <? 64) eqn:Edig.
    + cbn [a2b_loop]. rewrite Epad. cbv zeta.
      destruct (64 <=? table_a2b_base64 c); [apply IH|].
      destruct (q =? 0); [apply IH|].
      destruct (q =? 1); [apply IH|].
      destruct (q =? 2); apply IH.
    + cbn [a2b_loop]. rewrite Epad. cbv zeta.
      assert (E64 : (64 <=? table_a2b_base64 c) = true)
        by (apply Z.leb_le; apply Z.ltb_ge in Edig; lia).
      rewrite E64. apply IH.
Qed.

Lemma a2b_base64_filter (data : bytes) :
  a2b_base64 (filter significant data) = a2b_base64 data.
Proof. apply a2b_loop_filter. Qed.

(** [quad_pos] counts the digits modulo 4, and the loop raises only at the
    end of the input with [quad_pos] not 0: a failure means that the
    number of digits is not a multiple of 4. *)
Lemma a2b_loop_raise (data : bytes) :
  forall quad_pos leftchar pads bin_data e,
    0 <= quad_pos < 4 ->
    a2b_loop data quad_pos leftchar pads bin_data = Raise e ->
    (quad_pos + digits data) mod 4 <> 0.
Proof.
  unfold digits.
  induction data as [|c data IH]; intros q l p out e Hq H.
  - cbn in *. unfold a2b_finish in H.
    destruct (q =? 0) eqn:E0; [discriminate|].
    apply Z.eqb_neq in E0. rewrite Z.add_0_r, Z.mod_small; lia.
  - cbn [a2b_loop] in H. cbn [filter]. unfold is_digit at 1.
    destruct (c =? BASE64_PAD) eqn:Epad.
    + cbn [negb andb].
      destruct ((2 <=? q) && (4 <=? q + (p + 1))); [discriminate|].
      eapply IH; eauto.
    + cbn [negb andb]. cbv zeta in H.
      destruct (table_a2b_base64 c <? 64) eqn:Edig.
      * assert (E64 : (64 <=? table_a2b_base64 c) = false)
          by (apply Z.leb_gt; apply Z.ltb_lt in Edig; lia).
        rewrite E64 in H. cbn [List.length].
        rewrite Nat2Z.inj_succ.
        destruct (q =? 0) eqn:E0;
          [apply Z.eqb_eq in E0; subst q;
           apply IH in H; [|lia];
           intros C; apply H; rewrite <- C; f_equal; lia|].
        destruct (q =? 1) eqn:E1;
          [apply Z.eqb_eq in E1; subst q;
           apply IH in H; [|lia];
           intros C; apply H; rewrite <- C; f_equal; lia|].
        destruct (q =? 2) eqn:E2;
          [apply Z.eqb_eq in E2; subst q;
           apply IH in H; [|lia];
           intros C; apply H; rewrite <- C; f_equal; lia|].
        apply Z.eqb_neq in E0, E1, E2.
        assert (q = 3) by lia; subst q.
        apply IH in H; [|lia].
        intros C; apply H.
        replace (3 + Z.succ (Z.of_nat (List.length (filter is_digit data))))
          with (0 + Z.of_nat (List.length (filter is_digit data)) + 1 * 4) in C
          by lia.
        now rewrite Z.mod_add in C by lia.
      * assert (E64 : (64 <=? table_a2b_base64 c) = true)
          by (apply Z.leb_le; apply Z.ltb_ge in Edig; lia).
        rewrite E64 in H. eapply IH; eauto.
Qed.

(** Every byte written is a byte. *)
Lemma a2b_loop_range (data : bytes) :
  forall quad_pos leftchar pads bin_data out,
    Forall (fun b => 0 <= b < 256) bin_data ->
    a2b_loop data quad_pos leftchar pads bin_data = Ok out ->
    Forall (fun b => 0 <= b < 256) out.
Proof.
  assert (U : forall x, 0 <= u8 x < 256).
  { intros x. unfold u8. change 255 with (Z.ones 8).
    rewrite Z.land_ones by lia. apply Z.mod_pos_bound. reflexivity. }
  assert (A : forall l x, Forall (fun b => 0 <= b < 256) l ->
                          Forall (fun b => 0 <= b < 256) (l ++ [u8 x])).
  { intros l x Hl. apply Forall_app; split; [exact Hl|]. constructor; auto. }
  induction data as [|c data IH]; intros q l p acc out Hacc H.
  - cbn in H. unfold a2b_finish in H.
    destruct (q =? 0); [now inversion H; subst|].
    destruct (q =? 1); discriminate.
  - cbn [a2b_loop] in H. cbv zeta in H.
    destruct (c =? BASE64_PAD).
    + destruct ((2 <=? q) && (4 <=? q + (p + 1)));
        [now inversion H; subst | eapply IH; eauto].
    + destruct (64 <=? table_a2b_base64 c); [eapply IH; eauto|].
      destruct (q =? 0); [eapply IH; eauto|].
      destruct (q =? 1); [eapply IH; [|exact H]; auto|].
      destruct (q =? 2); (eapply IH; [|exact H]; auto).
Qed.

End Base64Facts.

(* ===================================================================== *)
(** ** The data-URL marker *)
(* ===================================================================== *)

Section Marker.

Import PyStr.

Lemma partition_miss (sep : string) (c : ascii) (s : string) :
  startswith sep (String c s) = false ->
  partition sep (String c s) =
  match partition sep s with
  | Some (a, b) => Some (String c a, b)
  | None => None
  end.
Proof. intros H. cbn [partition]. now rewrite H. Qed.

Lemma partition_hit (sep s : string) :
  sep <> "" -> partition sep (sep +:+ s) = Some ("", s).
Proof.
  intros Hne. destruct sep as [|x sep]; [congruence|].
  cbn [String.append partition].
  change (String x (sep +:+ s)) with (String x sep +:+ s).
  now rewrite startswith_append, drop_append.
Qed.

(** A copy of [p] cannot run across a character that [p] does not have. *)
Lemma startswith_stops (p : string) (c : ascii) :
  has_char c p = false ->
  forall m r, startswith p (m +:+ String c r) = true -> startswith p m = true.
Proof.
  induction p as [|x p IH]; intros Hc m r H; [reflexivity|].
  cbn [has_char] in Hc. apply orb_false_iff in Hc as [Hx Hp].
  destruct m as [|y m]; cbn [String.append startswith] in *.
  - rewrite Hx in H. discriminate.
  - apply andb_true_iff in H as [Hxy H]. rewrite Hxy. cbn [andb].
    now apply (IH Hp m r).
Qed.

Lemma partition_after_mime (mime s : string) :
  contains "base64," mime = false ->
  partition "base64," (mime +:+ ";base64," +:+ s) = Some (mime +:+ ";", s).
Proof.
  induction mime as [|c mime IH]; intros H.
  - cbn [String.append]. rewrite partition_miss by reflexivity.
    change (String "b" (String "a" (String "s" (String "e"
              (String "6" (String "4" (String "," s)))))))
      with ("base64," +:+ s).
    now rewrite partition_hit by discriminate.
  - cbn [contains] in H. apply orb_false_iff in H as [Hhere Hlater].
    change (String c mime +:+ ";base64," +:+ s)
      with (String c (mime +:+ ";base64," +:+ s)).
    rewrite partition_miss.
    + now rewrite (IH Hlater).
    + destruct (startswith "base64," (String c (mime +:+ ";base64," +:+ s)))
        eqn:E; [|reflexivity].
      change (String c (mime +:+ ";base64," +:+ s))
        with (String c mime +:+ String ";" ("base64," +:+ s)) in E.
      apply startswith_stops in E; [congruence | reflexivity].
Qed.

Lemma partition_data_url (mime s : string) :
  contains "base64," mime = false ->
  partition "base64," (data_url_header mime +:+ s)
  = Some ("data:" +:+ mime +:+ ";", s).
Proof.
  intros H. unfold data_url_header.
  rewrite !append_assoc.
  pose proof (partition_after_mime mime s H) as P.
  set (rest := mime +:+ ";base64," +:+ s) in *.
  cbn [String.append].
  do 5 (rewrite partition_miss by reflexivity).
  now rewrite P.
Qed.

(** What [split(...)[1]] selects, in terms of the leftmost cuts. *)
Lemma base64_payload_segment (s : string) :
  base64_payload s = Ok (first_segment s).
Proof.
  unfold base64_payload, first_segment.
  rewrite partition_contains.
  destruct (partition "base64," s) as [[a b]|] eqn:P; [|reflexivity].
  rewrite split_unfold by discriminate. rewrite P.
  rewrite (split_unfold "base64,") by discriminate.
  now destruct (partition "base64," b) as [[m r]|].
Qed.

Lemma first_segment_plain (s : string) :
  contains "base64," s = false -> first_segment s = s.
Proof.
  intros H. unfold first_segment.
  now rewrite (proj2 (partition_None _ _) H).
Qed.

Lemma first_segment_data_url (mime s : string) :
  contains "base64," mime = false ->
  contains "base64," s = false ->
  first_segment (data_url_header mime +:+ s) = s.
Proof.
  intros Hm Hs. unfold first_segment.
  rewrite (partition_data_url mime s Hm).
  now rewrite (proj2 (partition_None _ _) Hs).
Qed.

Lemma startswith_has_char (p s : string) (c : ascii) :
  startswith p s = true -> has_char c p = true -> has_char c s = true.
Proof.
  revert s; induction p as [|x p IH]; intros s H Hc; [discriminate|].
  destruct s as [|y s]; [discriminate|].
  cbn [startswith has_char] in *.
  apply andb_true_iff in H as [Hxy H].
  apply Ascii.eqb_eq in Hxy; subst y.
  apply orb_true_iff in Hc as [Hc|Hc]; [now rewrite Hc|].
  rewrite (IH s H Hc). apply orb_true_r.
Qed.

Lemma no_char_no_copy (sep s : string) (c : ascii) :
  has_char c sep = true -> has_char c s = false -> contains sep s = false.
Proof.
  intros Hsep. induction s as [|x s IH]; intros Hs.
  - cbn [contains]. rewrite orb_false_r.
    destruct (startswith sep "") eqn:E; [|reflexivity].
    now rewrite (startswith_has_char _ _ _ E Hsep) in Hs.
  - cbn [contains].
    destruct (startswith sep (String x s)) eqn:E.
    + now rewrite (startswith_has_char _ _ _ E Hsep) in Hs.
    + cbn [has_char] in Hs. apply orb_false_iff in Hs as [_ Hs].
      now rewrite (IH Hs).
Qed.

(** A text made of base64 digits and ['='] has no comma, hence no
    marker. *)
Lemma significant_no_marker (s : string) :
  forallb (fun c => Base64.significant (ord c)) (list_ascii_of_string s) = true ->
  contains "base64," s = false.
Proof.
  intros H. apply (no_char_no_copy _ _ ","%char); [reflexivity|].
  induction s as [|c s IH]; [reflexivity|].
  cbn [list_ascii_of_string forallb] in H.
  apply andb_true_iff in H as [Hc Hs].
  cbn [has_char]. rewrite (IH Hs), orb_false_r.
  destruct (Ascii.eqb c ",") eqn:E; [|reflexivity].
  apply Ascii.eqb_eq in E; subst c. discriminate.
Qed.

End Marker.

(* ===================================================================== *)
(** ** Running the handlers *)
(* ===================================================================== *)

Section Running.

Variable R : Runtime.

Lemma decode_or_422_run (payload : string) (w : World) :
  decode_or_422 payload w =
  (match Base64.b64decode payload with
   | Ok b => Ok b
   | Raise e =>
       Raise (HTTPException 422
                ("Error processing base64 image: " +:+ str_exn e))
   end, w).
Proof.
  unfold decode_or_422, try_except, lift, raise.
  now destruct (Base64.b64decode payload).
Qed.

Lemma process_base64_image_run (s : string) (w : World) :
  process_base64_image s w = decode_or_422 (first_segment s) w.
Proof.
  unfold process_base64_image, decode_or_422, try_except, bind, lift, raise.
  now rewrite base64_payload_segment.
Qed.

Lemma download_image_run (url : string) (w : World) :
  download_image url w =
  (match network w url 10 with
   | Raise e =>
       Raise (HTTPException 422 ("Error downloading image: " +:+ str_exn e))
   | Ok response =>
       match Requests.raise_for_status response with
       | Raise e =>
           Raise (HTTPException 422
                    ("Error downloading image: " +:+ str_exn e))
       | Ok _ => Ok (Requests.content response)
       end
   end, after_fetch url w).
Proof.
  unfold download_image, try_except, bind, lift, raise, ret, requests_get,
    after_fetch.
  cbn [network].
  destruct (network w url 10) as [response|e]; [|reflexivity].
  now destruct (Requests.raise_for_status response).
Qed.

Lemma str_exn_422 (detail : string) :
  str_exn (HTTPException 422 detail) = "422: " +:+ detail.
Proof. reflexivity. Qed.

Lemma prefixed_differs (detail : string) : "422: " +:+ detail <> detail.
Proof.
  intros E. apply (f_equal String.length) in E.
  rewrite append_length in E. cbn in E. lia.
Qed.

(** An exception of a normaliser reaches the catch-all of
    [get_embeddings], which raises anew with [str(e)] as detail. *)
Lemma get_embeddings_download_raise (url : string) (w w' : World) (e : exn) :
  download_image url w = (Raise e, w') ->
  get_embeddings R {| type := image_url; input := url |} w
  = (Raise (HTTPException 422 (str_exn e)), w').
Proof.
  intros H. unfold get_embeddings, try_except, bind. cbn [type input].
  now rewrite H.
Qed.

Lemma get_embeddings_base64_raise (s : string) (w w' : World) (e : exn) :
  process_base64_image s w = (Raise e, w') ->
  get_embeddings R {| type := image_base64; input := s |} w
  = (Raise (HTTPException 422 (str_exn e)), w').
Proof.
  intros H. unfold get_embeddings, try_except, bind. cbn [type input].
  now rewrite H.
Qed.

(** [get_embeddings] returns the success dict of some embedding, or
    raises [HTTPException(422)]; nothing else leaves it. *)
Lemma get_embeddings_outcome (request : EmbeddingRequest) (w : World) :
  exists w',
    (exists embedding,
        get_embeddings R request w = (Ok (success_body _ embedding), w'))
    \/ (exists detail,
           get_embeddings R request w = (Raise (HTTPException 422 detail), w')).
Proof.
  destruct request as [[| |] inp];
    unfold get_embeddings, try_except, bind, lift, ret, raise, print, BytesIO;
    cbn [type input].
  - destruct (tokenize R inp) as [x|e]; [|eexists; right; eexists; reflexivity].
    destruct (encode_text R x) as [rows|e];
      [|eexists; right; eexists; reflexivity].
    destruct (getitem rows 0) as [emb|e];
      eexists; [left|right]; eexists; reflexivity.
  - destruct (download_image inp w) as [[b|e] w1];
      [|eexists; right; eexists; reflexivity].
    destruct (Image_open R _) as [i|e]; [|eexists; right; eexists; reflexivity].
    destruct (preprocess R i) as [x|e]; [|eexists; right; eexists; reflexivity].
    destruct (encode_image R x) as [rows|e];
      [|eexists; right; eexists; reflexivity].
    destruct (getitem rows 0) as [emb|e];
      eexists; [left|right]; eexists; reflexivity.
  - destruct (process_base64_image inp w) as [[b|e] w1];
      [|eexists; right; eexists; reflexivity].
    destruct (Image_open R _) as [i|e]; [|eexists; right; eexists; reflexivity].
    destruct (preprocess R i) as [x|e]; [|eexists; right; eexists; reflexivity].
    destruct (encode_image R x) as [rows|e];
      [|eexists; right; eexists; reflexivity].
    destruct (getitem rows 0) as [emb|e];
      eexists; [left|right]; eexists; reflexivity.
Qed.

(** The answer to a text request does not depend on the world. *)
Lemma get_embeddings_text_any_world (t : string) (w1 w2 : World) :
  fst (get_embeddings R {| type := text; input := t |} w1)
  = fst (get_embeddings R {| type := text; input := t |} w2).
Proof.
  unfold get_embeddings, try_except, bind, lift, ret, raise, print, BytesIO.
  cbn [type input].
  destruct (tokenize R t) as [x|e]; [|reflexivity].
  destruct (encode_text R x) as [rows|e]; [|reflexivity].
  now destruct (getitem rows 0).
Qed.

(** Two image requests whose normalisers return the same bytes succeed
    together, with the same dict, when opening goes by contents. *)
Lemma image_answers_agree
    (request1 request2 : EmbeddingRequest) (b : bytes)
    (w1 w1' w2 w2' : World) :
  opens_by_contents R ->
  normaliser_returns w1 request1 b w1' ->
  normaliser_returns w2 request2 b w2' ->
  forall d,
    fst (get_embeddings R request1 w1) = Ok d
    -> fst (get_embeddings R request2 w2) = Ok d.
Proof.
  intros Hopen N1 N2 d.
  destruct N1 as [url1 b w1' D1 | s1 b w1' D1];
    destruct N2 as [url2 b w2' D2 | s2 b w2' D2];
    unfold get_embeddings, try_except, bind, lift, ret, raise, print, BytesIO;
    cbn [type input]; rewrite D1, D2; cbv beta iota;
    (destruct (Image_open R {| getvalue := b;
                               id := object_ids w1' (allocated w1') |})
       as [i|e] eqn:O1; [|discriminate]);
    rewrite (Hopen {| getvalue := b;
                      id := object_ids w1' (allocated w1') |}
                   {| getvalue := b;
                      id := object_ids w2' (allocated w2') |} i eq_refl O1);
    (destruct (preprocess R i) as [x|e]; [|discriminate]);
    (destruct (encode_image R x) as [rows|e]; [|discriminate]);
    (destruct (getitem rows 0) as [emb|e]; [|discriminate]);
    cbn [fst]; intros H; exact H.
Qed.

Lemma fst_app (q : HttpRequest) (w : World) :
  fst (app R q w) = respond R (fst (route R q w)).
Proof. unfold app. now destruct (route R q w). Qed.


End Running.

(* ===================================================================== *)
(** ** Properties of the service *)
(* ===================================================================== *)

(** C1.  A successful answer of [POST /embeddings] carries, under
    [embedding_dimension], the length of the list under [embeddings]; and
    when the text encoder has a fixed output width (512 for ViT-B/32), the
    answer to a text request has exactly that many elements. *)
Theorem embedding_dimension_is_length
    (R : Runtime) (width : nat)
    (fixed_width : forall x rows,
        encode_text R x = Ok rows ->
        Forall (fun row => List.length row = width) rows)
    (request : EmbeddingRequest) (w w' : World) (d : dict (float R))
    (success : get_embeddings R request w = (Ok d, w')) :
  app R (POST_embeddings request) w = ({| status := 200; body := VDict d |}, w')
  /\ exists embedding,
      dict_get d "embeddings" = Some (VFloats embedding)
      /\ dict_get d "embedding_dimension"
         = Some (VInt (Z.of_nat (List.length embedding)))
      /\ (type request = text -> List.length embedding = width).
Proof.
  split.
  { unfold app, route. now rewrite success. }
  destruct request as [[| |] inp];
    unfold get_embeddings, try_except, bind, lift, ret, raise, print, BytesIO in success;
    cbn [type input] in success.
  - destruct (tokenize R inp) as [x|e]; [|discriminate].
    destruct (encode_text R x) as [rows|e] eqn:Erows; [|discriminate].
    destruct (getitem rows 0) as [emb|e] eqn:Eemb; [|discriminate].
    inversion success; subst d w'. exists emb. repeat split.
    intros _. unfold getitem in Eemb.
    destruct rows as [|row rows]; [discriminate|].
    cbn in Eemb. inversion Eemb; subst emb.
    pose proof (fixed_width x _ Erows) as F. now inversion F.
  - destruct (download_image inp w) as [[b|e] w1]; [|discriminate].
    destruct (Image_open R _) as [i|e]; [|discriminate].
    destruct (preprocess R i) as [x|e]; [|discriminate].
    destruct (encode_image R x) as [rows|e]; [|discriminate].
    destruct (getitem rows 0) as [emb|e]; [|discriminate].
    inversion success; subst d w'. exists emb. repeat split. discriminate.
  - destruct (process_base64_image inp w) as [[b|e] w1]; [|discriminate].
    destruct (Image_open R _) as [i|e]; [|discriminate].
    destruct (preprocess R i) as [x|e]; [|discriminate].
    destruct (encode_image R x) as [rows|e]; [|discriminate].
    destruct (getitem rows 0) as [emb|e]; [|discriminate].
    inversion success; subst d w'. exists emb. repeat split. discriminate.
Qed.

Lemma stub_fixed_width :
  forall x rows,
    encode_text Stub.runtime x = Ok rows ->
    Forall (fun row => List.length row = 512%nat) rows.
Proof.
  intros x rows H.
  change (Ok [repeat 0 512%nat] = Ok rows) in H.
  injection H as <-.
  constructor; [reflexivity | constructor].
Defined.

Lemma embedding_dimension_is_length_witness :
  exists d w',
    get_embeddings Stub.runtime
      {| type := text; input := "a photo of a cat" |} Stub.offline = (Ok d, w')
    /\ exists embedding : list Z,
        dict_get d "embeddings" = Some (VFloats embedding)
        /\ dict_get d "embedding_dimension"
           = Some (VInt (Z.of_nat (List.length embedding)))
        /\ List.length embedding = 512%nat.
Proof.
  eexists. eexists. split; [reflexivity|].
  destruct (embedding_dimension_is_length Stub.runtime 512 stub_fixed_width
              {| type := text; input := "a photo of a cat" |}
              Stub.offline _ _ eq_refl) as [_ [embedding [He [Hd Hw]]]].
  exists embedding. repeat split; [exact He | exact Hd | exact (Hw eq_refl)].
Defined.

(** C2.  A base64 payload and the same payload behind a data-URL header
    ["data:<mime>;base64,"] are decoded to the same bytes, and the two
    requests give the same embeddings: when one of them succeeds, so does
    the other, with the same dict.  (A base64 payload and a MIME type
    contain no comma, so no ["base64,"]; the image library opens a stream
    by its contents.) *)
Theorem data_url_prefix_same_embeddings
    (R : Runtime) (mime s : string)
    (mime_clean : PyStr.contains "base64," mime = false)
    (payload_clean : PyStr.contains "base64," s = false)
    (by_contents : opens_by_contents R)
    (w1 w2 : World) :
  fst (process_base64_image (data_url_header mime +:+ s) w1)
  = fst (process_base64_image s w2)
  /\ (forall image_bytes,
        Base64.b64decode s = Ok image_bytes ->
        fst (process_base64_image (data_url_header mime +:+ s) w1)
        = Ok image_bytes)
  /\ (forall d,
        fst (get_embeddings R
               {| type := image_base64;
                  input := data_url_header mime +:+ s |} w1) = Ok d
        <-> fst (get_embeddings R
                   {| type := image_base64; input := s |} w2) = Ok d).
Proof.
  pose proof (first_segment_data_url mime s mime_clean payload_clean) as E1.
  pose proof (first_segment_plain s payload_clean) as E2.
  split; [|split].
  - rewrite !process_base64_image_run, !decode_or_422_run, E1, E2. reflexivity.
  - intros b Hb.
    rewrite process_base64_image_run, decode_or_422_run, E1, Hb. reflexivity.
  - intros d.
    destruct (Base64.b64decode s) as [b|e] eqn:D.
    + assert (N1 : normaliser_returns w1
                     {| type := image_base64;
                        input := data_url_header mime +:+ s |} b w1).
      { constructor.
        now rewrite process_base64_image_run, decode_or_422_run, E1, D. }
      assert (N2 : normaliser_returns w2
                     {| type := image_base64; input := s |} b w2).
      { constructor.
        now rewrite process_base64_image_run, decode_or_422_run, E2, D. }
      split.
      * exact (image_answers_agree R _ _ b _ _ _ _ by_contents N1 N2 d).
      * exact (image_answers_agree R _ _ b _ _ _ _ by_contents N2 N1 d).
    + assert (F : forall x w,
                 first_segment x = s ->
                 fst (get_embeddings R {| type := image_base64; input := x |} w)
                 <> Ok d).
      { intros x w Ex.
        unfold get_embeddings, try_except, bind. cbn [type input].
        rewrite process_base64_image_run, decode_or_422_run, Ex, D.
        discriminate. }
      split; intros H; exfalso; [exact (F _ _ E1 H) | exact (F _ _ E2 H)].
Qed.

Lemma stub_opens_by_contents : opens_by_contents Stub.runtime.
Proof.
  intros fp1 fp2 image E. cbn [Image_open Stub.runtime].
  unfold Stub.open_gif. rewrite <- E.
  destruct (Stub.starts_like_gif (getvalue fp1)); [trivial | discriminate].
Defined.

Lemma data_url_prefix_same_embeddings_witness :
  fst (process_base64_image (data_url_header "image/gif" +:+ "R0lGODlh")
         (Stub.answering 200 "OK"))
  = Ok [71; 73; 70; 56; 57; 97]
  /\ fst (get_embeddings Stub.runtime
            {| type := image_base64;
               input := "data:image/gif;base64,R0lGODlh" |}
            (Stub.answering 200 "OK"))
     = Ok (success_body Z (repeat 0 512)).
Proof.
  destruct (data_url_prefix_same_embeddings Stub.runtime "image/gif" "R0lGODlh"
              eq_refl eq_refl stub_opens_by_contents
              (Stub.answering 200 "OK") Stub.offline)
    as [_ [Hbytes Hsame]].
  split.
  - exact (Hbytes _ eq_refl).
  - exact (proj2 (Hsame _) eq_refl).
Defined.

(** C3, as the claim has it, fails: the decoder is lenient, and malformed
    base64 it accepts is decoded like any other.  Here a small GIF, its
    base64 text broken by a ['*'], is answered with 200. *)
Lemma lenient_decoder_accepts_malformed :
  ~ (forall (R : Runtime) (s payload : string) (w : World),
        base64_payload s = Ok payload ->
        Base64.well_formed payload = false ->
        status (fst (app R (POST_embeddings
                              {| type := image_base64; input := s |}) w))
        = 422).
Proof.
  intros claim.
  specialize (claim Stub.runtime
                "R0lG*ODlhAQABAIAAAAAAAP///yH5BAEAAAAALAAAAAABAAEAAAIBRAA7"
                "R0lG*ODlhAQABAIAAAAAAAP///yH5BAEAAAAALAAAAAABAAEAAAIBRAA7"
                Stub.offline eq_refl eq_refl).
  vm_compute in claim. discriminate.
Qed.

(** C3, amended.  A [image_base64] request whose payload [b64decode]
    rejects, such as ["not-valid-base64!!"], is answered with status 422
    (not 500): the decoder's exception is caught in
    [process_base64_image], and the [HTTPException] raised there is caught
    and raised anew by [get_embeddings]. *)
Theorem rejected_base64_is_422
    (R : Runtime) (s payload : string) (e : exn) (w : World)
    (stripped : base64_payload s = Ok payload)
    (rejected : Base64.b64decode payload = Raise e) :
  app R (POST_embeddings {| type := image_base64; input := s |}) w
  = (error_422 _ ("422: Error processing base64 image: " +:+ str_exn e), w).
Proof.
  rewrite base64_payload_segment in stripped. inversion stripped as [E].
  unfold app, route.
  rewrite (get_embeddings_base64_raise R s w w
             (HTTPException 422
                ("Error processing base64 image: " +:+ str_exn e))).
  - reflexivity.
  - rewrite process_base64_image_run, decode_or_422_run, E, rejected.
    reflexivity.
Qed.

Lemma rejected_base64_is_422_witness :
  app Stub.runtime
    (POST_embeddings {| type := image_base64; input := "not-valid-base64!!" |})
    Stub.offline
  = (error_422 _ "422: Error processing base64 image: Incorrect padding",
     Stub.offline).
Proof.
  exact (rejected_base64_is_422 Stub.runtime "not-valid-base64!!"
           "not-valid-base64!!" (Base64.binascii_Error "Incorrect padding")
           Stub.offline eq_refl eq_refl).
Defined.

(** [raise_for_status] raises exactly on the statuses 400 to 599. *)
Lemma raise_for_status_raises (response : Requests.Response) :
  (exists e, Requests.raise_for_status response = Raise e)
  <-> 400 <= Requests.status_code response < 600.
Proof.
  unfold Requests.raise_for_status.
  destruct (400 <=? Requests.status_code response) eqn:E1;
    destruct (Requests.status_code response <? 500) eqn:E2;
    destruct (500 <=? Requests.status_code response) eqn:E3;
    destruct (Requests.status_code response <? 600) eqn:E4;
    cbn [andb];
    repeat match goal with
      | H : (_ <=? _) = true |- _ => apply Z.leb_le in H
      | H : (_ <=? _) = false |- _ => apply Z.leb_gt in H
      | H : (_ <? _) = true |- _ => apply Z.ltb_lt in H
      | H : (_ <? _) = false |- _ => apply Z.ltb_ge in H
      end;
    split;
    try (intros _; eexists; reflexivity);
    try (intros _; lia);
    try (intros [e He]; discriminate);
    try (intros ?; lia).
Qed.




(** C5.  Whatever step fails in [get_embeddings] (download, base64
    decoding, opening the image, preprocessing, tokenising, encoding,
    taking row 0), the answer has status 422 and the detail is [str] of
    what the step raised; every answer that is not the success one comes
    from such a step.  So the failure paths share the status and differ in
    the message, and no answer of this route is a 5xx. *)
Theorem every_failure_is_422
    (R : Runtime) (request : EmbeddingRequest) (w : World) :
  (forall e w',
      step_raises R w request e w' ->
      get_embeddings R request w = (Raise (HTTPException 422 (str_exn e)), w')
      /\ app R (POST_embeddings request) w = (error_422 _ (str_exn e), w'))
  /\ (forall x w',
        get_embeddings R request w = (Raise x, w') ->
        exists e, step_raises R w request e w'
                  /\ x = HTTPException 422 (str_exn e))
  /\ ((exists embedding,
          fst (get_embeddings R request w) = Ok (success_body _ embedding)
          /\ fst (app R (POST_embeddings request) w)
             = {| status := 200; body := VDict (success_body _ embedding) |})
      \/
      (exists detail,
          fst (get_embeddings R request w) = Raise (HTTPException 422 detail)
          /\ fst (app R (POST_embeddings request) w) = error_422 _ detail))
  /\ status (fst (app R (POST_embeddings request) w)) < 500.
Proof.
  split; [|split; [|split]].
  - intros e w' H.
    assert (G : get_embeddings R request w
                = (Raise (HTTPException 422 (str_exn e)), w')).
    { destruct H as [t e T | t x e T E | t x rows e T E I
                    | request e w' N
                    | request b w1 e N O
                    | request b w1 image e N O P
                    | request b w1 image x e N O P E
                    | request b w1 image x rows e N O P E I].
      - unfold get_embeddings, try_except, bind, lift, raise.
        cbn [type input]. now rewrite T.
      - unfold get_embeddings, try_except, bind, lift, raise.
        cbn [type input]. now rewrite T, E.
      - unfold get_embeddings, try_except, bind, lift, raise.
        cbn [type input]. now rewrite T, E, I.
      - destruct N as [url e w' D | s e w' D].
        + exact (get_embeddings_download_raise R _ _ _ _ D).
        + exact (get_embeddings_base64_raise R _ _ _ _ D).
      - unfold new_stream in O.
        destruct N as [url b w1 D | s b w1 D];
          unfold get_embeddings, try_except, bind, lift, raise, BytesIO;
          cbn [type input]; rewrite D; cbv beta iota; now rewrite O.
      - unfold new_stream in O.
        destruct N as [url b w1 D | s b w1 D];
          unfold get_embeddings, try_except, bind, lift, raise, BytesIO;
          cbn [type input]; rewrite D; cbv beta iota; now rewrite O, P.
      - unfold new_stream in O.
        destruct N as [url b w1 D | s b w1 D];
          unfold get_embeddings, try_except, bind, lift, raise, BytesIO;
          cbn [type input]; rewrite D; cbv beta iota; now rewrite O, P, E.
      - unfold new_stream in O.
        destruct N as [url b w1 D | s b w1 D];
          unfold get_embeddings, try_except, bind, lift, raise, BytesIO;
          cbn [type input]; rewrite D; cbv beta iota; now rewrite O, P, E, I. }
    split; [exact G|]. unfold app, route. now rewrite G.
  - intros x w' H.
    destruct request as [[| |] inp];
      unfold get_embeddings, try_except, bind, lift, ret, raise, print, BytesIO
        in H;
      cbn [type input] in H.
    + destruct (tokenize R inp) as [tk|e] eqn:T.
      * destruct (encode_text R tk) as [rows|e] eqn:E.
        -- destruct (getitem rows 0) as [emb|e] eqn:I; [discriminate|].
           inversion H; subst x w'. exists e. split; [|reflexivity].
           exact (text_index_raises R w inp tk rows e T E I).
        -- inversion H; subst x w'. exists e. split; [|reflexivity].
           exact (encode_text_raises R w inp tk e T E).
      * inversion H; subst x w'. exists e. split; [|reflexivity].
        exact (tokenize_raises R w inp e T).
    + destruct (download_image inp w) as [[b|e] w1] eqn:D.
      * pose proof (download_returns w inp b w1 D) as N.
        destruct (Image_open R _) as [i|e] eqn:O.
        -- destruct (preprocess R i) as [tn|e] eqn:P.
           ++ destruct (encode_image R tn) as [rows|e] eqn:E.
              ** destruct (getitem rows 0) as [emb|e] eqn:I; [discriminate|].
                 inversion H; subst x w'. exists e. split; [|reflexivity].
                 exact (image_index_raises R w _ b w1 i tn rows e N O P E I).
              ** inversion H; subst x w'. exists e. split; [|reflexivity].
                 exact (encode_image_raises R w _ b w1 i tn e N O P E).
           ++ inversion H; subst x w'. exists e. split; [|reflexivity].
              exact (preprocess_raises R w _ b w1 i e N O P).
        -- inversion H; subst x w'. exists e. split; [|reflexivity].
           exact (open_raises R w _ b w1 e N O).
      * inversion H; subst x w'. exists e. split; [|reflexivity].
        apply normaliser_step_raises. exact (download_raises w inp e w1 D).
    + destruct (process_base64_image inp w) as [[b|e] w1] eqn:D.
      * pose proof (base64_returns w inp b w1 D) as N.
        destruct (Image_open R _) as [i|e] eqn:O.
        -- destruct (preprocess R i) as [tn|e] eqn:P.
           ++ destruct (encode_image R tn) as [rows|e] eqn:E.
              ** destruct (getitem rows 0) as [emb|e] eqn:I; [discriminate|].
                 inversion H; subst x w'. exists e. split; [|reflexivity].
                 exact (image_index_raises R w _ b w1 i tn rows e N O P E I).
              ** inversion H; subst x w'. exists e. split; [|reflexivity].
                 exact (encode_image_raises R w _ b w1 i tn e N O P E).
           ++ inversion H; subst x w'. exists e. split; [|reflexivity].
              exact (preprocess_raises R w _ b w1 i e N O P).
        -- inversion H; subst x w'. exists e. split; [|reflexivity].
           exact (open_raises R w _ b w1 e N O).
      * inversion H; subst x w'. exists e. split; [|reflexivity].
        apply normaliser_step_raises. exact (base64_raises w inp e w1 D).
  - rewrite fst_app. cbn [route].
    destruct (get_embeddings_outcome R request w)
      as [w' [[emb H] | [detail H]]]; rewrite H; cbn [fst respond].
    + left; exists emb; now split.
    + right; exists detail; now split.
  - rewrite fst_app. cbn [route].
    destruct (get_embeddings_outcome R request w)
      as [w' [[emb H] | [detail H]]]; rewrite H; cbn [fst respond status]; lia.
Qed.

Lemma every_failure_is_422_witness :
  app Stub.runtime
    (POST_embeddings {| type := image_base64; input := "QUJD" |}) Stub.offline
  = (error_422 _
       "cannot identify image file <_io.BytesIO object at 140000000000000>",
     after_alloc Stub.offline).
Proof.
  exact (proj2 (proj1 (every_failure_is_422 Stub.runtime
                         {| type := image_base64; input := "QUJD" |}
                         Stub.offline)
                  (PyError "PIL.UnidentifiedImageError"
                     "cannot identify image file <_io.BytesIO object at 140000000000000>")
                  (after_alloc Stub.offline)
                  (open_raises Stub.runtime Stub.offline
                     {| type := image_base64; input := "QUJD" |}
                     [65; 66; 67] Stub.offline _
                     (base64_returns Stub.offline "QUJD" [65; 66; 67]
                        Stub.offline eq_refl)
                     eq_refl))).
Defined.

(** C6.  [GET /health] answers 200 with [status], [device] and [model],
    and leaves the world as it was; this holds in every world, so after any
    sequence of earlier requests, failed or not. *)
Theorem health_always_healthy
    (R : Runtime) (env : World -> World) (earlier : list HttpRequest)
    (w0 : World) :
  let w := snd (serve_all R env earlier w0) in
  app R GET_health w
  = ({| status := 200; body := VDict (health_body _ (device R)) |}, w)
  /\ dict_get (health_body (float R) (device R)) "status"
     = Some (VStr "healthy")
  /\ dict_get (health_body (float R) (device R)) "model"
     = Some (VStr "ViT-B/32")
  /\ (device R = "cuda" \/ device R = "cpu").
Proof.
  cbv zeta. repeat split.
  unfold device. destruct (cuda_is_available R); [now left | now right].
Qed.

(** C7.  Two text requests with the same input get the same answer,
    whatever happened in between: the answer is a function of the input and
    of the frozen model, and of nothing in the world. *)
Theorem text_embedding_deterministic
    (R : Runtime) (t : string) (w1 w2 : World) :
  fst (app R (POST_embeddings {| type := text; input := t |}) w1)
  = fst (app R (POST_embeddings {| type := text; input := t |}) w2).
Proof.
  rewrite !fst_app. cbn [route]. f_equal.
  apply get_embeddings_text_any_world.
Qed.

(** C8, as the claim has it, fails: with a second ["base64,"] in the input
    the text after the second marker is not decoded. *)
Lemma second_marker_cuts_payload :
  ~ (forall (s : string) (w : World),
        process_base64_image s w = decode_or_422 (remainder_after_marker s) w).
Proof.
  intros claim.
  specialize (claim "base64,QUJDbase64,REVG" Stub.offline).
  apply (f_equal fst) in claim. vm_compute in claim. discriminate.
Qed.

(** C8, amended.  [process_base64_image] decodes the text between the
    leftmost ["base64,"] and the next ["base64,"]: a string without the
    marker is decoded whole; with one marker, all that follows it is
    decoded; with more, what lies between the first two. *)
Theorem marker_cut (s : string) (w : World) :
  process_base64_image s w = decode_or_422 (first_segment s) w
  /\ ((PyStr.contains "base64," s = false /\ first_segment s = s)
      \/ (exists before rest,
             s = before +:+ "base64," +:+ rest
             /\ PyStr.contains "base64," before = false
             /\ PyStr.contains "base64," rest = false
             /\ first_segment s = rest)
      \/ (exists before segment rest,
             s = before +:+ "base64," +:+ segment +:+ "base64," +:+ rest
             /\ PyStr.contains "base64," before = false
             /\ PyStr.contains "base64," segment = false
             /\ first_segment s = segment)).
Proof.
  split; [apply process_base64_image_run|].
  unfold first_segment.
  destruct (PyStr.partition "base64," s) as [[before rest]|] eqn:P.
  - right.
    assert (Hne : "base64," <> "") by discriminate.
    pose proof (partition_Some _ _ _ _ P) as Es.
    pose proof (partition_before_clean _ Hne _ _ _ P) as Cb.
    destruct (PyStr.partition "base64," rest) as [[segment rest']|] eqn:P'.
    + right. exists before, segment, rest'.
      pose proof (partition_Some _ _ _ _ P') as Er.
      pose proof (partition_before_clean _ Hne _ _ _ P') as Cs.
      rewrite Er in Es. now repeat split.
    + left. exists before, rest.
      apply partition_None in P'. now repeat split.
  - left. apply partition_None in P. now split.
Qed.

(** C9.  When [download_image] or [process_base64_image] fails, what it
    raises is an [HTTPException(422)]; [get_embeddings] catches it and
    raises a new [HTTPException(422)] whose detail is [str] of the inner
    exception, that is ["422: "] followed by the inner detail, and not the
    inner detail. *)
Theorem inner_422_is_rewrapped
    (R : Runtime) (request : EmbeddingRequest) (w w' : World) (e : exn)
    (failure : normaliser_raises w request e w') :
  exists inner,
    e = HTTPException 422 inner
    /\ get_embeddings R request w = (Raise (HTTPException 422 (str_exn e)), w')
    /\ str_exn e = "422: " +:+ inner
    /\ str_exn e <> inner
    /\ app R (POST_embeddings request) w = (error_422 _ ("422: " +:+ inner), w')
    /\ (PyStr.startswith "Error downloading image: " inner = true
        \/ PyStr.startswith "Error processing base64 image: " inner = true).
Proof.
  assert (wrap : forall inner,
             e = HTTPException 422 inner ->
             get_embeddings R request w
             = (Raise (HTTPException 422 (str_exn e)), w') ->
             e = HTTPException 422 inner
             /\ get_embeddings R request w
                = (Raise (HTTPException 422 (str_exn e)), w')
             /\ str_exn e = "422: " +:+ inner
             /\ str_exn e <> inner
             /\ app R (POST_embeddings request) w
                = (error_422 _ ("422: " +:+ inner), w')).
  { intros inner -> G. repeat split; try assumption.
    - rewrite str_exn_422. apply prefixed_differs.
    - unfold app, route. now rewrite G. }
  destruct failure as [url e w' H | s e w' H].
  - pose proof (get_embeddings_download_raise R _ _ _ _ H) as G.
    rewrite download_image_run in H.
    destruct (network w url 10) as [response|cause].
    + destruct (Requests.raise_for_status response) as [|cause];
        [discriminate|].
      inversion H; subst e w'. destruct (wrap _ eq_refl G) as (W1 & W2 & W3 & W4 & W5).
      eexists. repeat (split; [eassumption|]).
      left. reflexivity.
    + inversion H; subst e w'. destruct (wrap _ eq_refl G) as (W1 & W2 & W3 & W4 & W5).
      eexists. repeat (split; [eassumption|]).
      left. reflexivity.
  - pose proof (get_embeddings_base64_raise R _ _ _ _ H) as G.
    rewrite process_base64_image_run, decode_or_422_run in H.
    destruct (Base64.b64decode (first_segment s)) as [b|cause];
      [discriminate|].
    inversion H; subst e w'.
    destruct (wrap _ eq_refl G) as (W1 & W2 & W3 & W4 & W5).
    eexists. repeat (split; [eassumption|]).
    right. reflexivity.
Qed.

Lemma inner_422_is_rewrapped_witness :
  get_embeddings Stub.runtime
    {| type := image_url; input := "http://unreachable.invalid/a.png" |}
    Stub.offline
  = (Raise (HTTPException 422
       "422: Error downloading image: Failed to establish a new connection"),
     after_fetch "http://unreachable.invalid/a.png" Stub.offline).
Proof.
  destruct (inner_422_is_rewrapped Stub.runtime
              {| type := image_url; input := "http://unreachable.invalid/a.png" |}
              Stub.offline
              (after_fetch "http://unreachable.invalid/a.png" Stub.offline)
              (HTTPException 422
                 "Error downloading image: Failed to establish a new connection")
              (download_raises Stub.offline "http://unreachable.invalid/a.png"
                 (HTTPException 422
                    "Error downloading image: Failed to establish a new connection")
                 (after_fetch "http://unreachable.invalid/a.png" Stub.offline)
                 eq_refl))
    as [inner [_ [G _]]].
  exact G.
Defined.

(* ===================================================================== *)
(** ** Lenient decoding *)
(* ===================================================================== *)

Section Lenient.

Import Base64.

Lemma map_filter_ord (p : Z -> bool) (l : list ascii) :
  map PyStr.ord (filter (fun c => p (PyStr.ord c)) l)
  = filter p (map PyStr.ord l).
Proof.
  induction l as [|c l IH]; [reflexivity|].
  cbn [filter map]. destruct (p (PyStr.ord c)); cbn [map]; now rewrite IH.
Qed.

Lemma encode_keep_significant (s : string) :
  encode_ascii (keep_significant s) = filter significant (encode_ascii s).
Proof.
  unfold encode_ascii, keep_significant.
  rewrite list_ascii_of_string_of_list_ascii. apply map_filter_ord.
Qed.

Lemma isascii_keep_significant (s : string) :
  PyStr.isascii s = true -> PyStr.isascii (keep_significant s) = true.
Proof.
  unfold PyStr.isascii, keep_significant.
  rewrite list_ascii_of_string_of_list_ascii.
  induction (list_ascii_of_string s) as [|c l IH]; intros H; [reflexivity|].
  cbn [forallb] in H. apply andb_true_iff in H as [Hc Hl].
  cbn [filter]. destruct (significant (PyStr.ord c)); [|now apply IH].
  cbn [forallb]. now rewrite Hc, IH.
Qed.

(** On ASCII text, dropping the skipped characters first changes
    nothing. *)
Lemma b64decode_keep_significant (s : string) :
  PyStr.isascii s = true -> b64decode (keep_significant s) = b64decode s.
Proof.
  intros H. unfold b64decode.
  rewrite H, (isascii_keep_significant s H), encode_keep_significant.
  apply a2b_base64_filter.
Qed.

(** [b64decode] raises only on a non-ASCII character or on a number of
    digits that is not a multiple of 4. *)
Lemma b64decode_raise (s : string) (e : exn) :
  b64decode s = Raise e ->
  PyStr.isascii s = false \/ digits (encode_ascii s) mod 4 <> 0.
Proof.
  unfold b64decode. destruct (PyStr.isascii s); [|now left].
  intros H. right.
  apply (a2b_loop_raise _ 0 0 0 [] e) in H; [exact H | lia].
Qed.

End Lenient.

(** C10, as the claim has it, fails: a character that is not ASCII is not
    discarded.  The decoder raises on it although the characters that
    remain decode. *)
Lemma non_ascii_is_not_discarded :
  ~ (forall (s payload : string) (w : World) (e : exn),
        base64_payload s = Ok payload ->
        fst (process_base64_image s w) = Raise e ->
        exists e', Base64.b64decode (Base64.keep_significant payload) = Raise e').
Proof.
  intros claim.
  destruct (claim ("QUJD" +:+ String (ascii_of_nat 233) "")
                  ("QUJD" +:+ String (ascii_of_nat 233) "")
                  Stub.offline
                  (HTTPException 422
                     "Error processing base64 image: string argument should contain only ASCII characters")
                  eq_refl eq_refl) as [e' He'].
  vm_compute in He'. discriminate.
Qed.

(** C10, amended.  Decoding in [process_base64_image] is lenient: the ASCII
    characters that are neither base64 digits nor ['='] are skipped, so
    some inputs with such characters decode; decoding raises only when the
    payload has a non-ASCII character or when its number of digits is not
    a multiple of 4. *)
Theorem lenient_decoding
    (s payload : string) (w : World)
    (stripped : base64_payload s = Ok payload) :
  (PyStr.isascii payload = true ->
   process_base64_image s w
   = decode_or_422 (Base64.keep_significant payload) w)
  /\ (forall e,
        fst (process_base64_image s w) = Raise e ->
        PyStr.isascii payload = false
        \/ Base64.digits (Base64.encode_ascii payload) mod 4 <> 0)
  /\ (exists junk image_bytes,
        Base64.keep_significant junk <> junk
        /\ process_base64_image junk w = (Ok image_bytes, w)).
Proof.
  rewrite base64_payload_segment in stripped. inversion stripped as [E].
  rewrite process_base64_image_run, !decode_or_422_run.
  repeat split.
  - intros H. now rewrite (b64decode_keep_significant _ H).
  - intros e H. cbn [fst] in H.
    destruct (Base64.b64decode (first_segment s)) as [b|cause] eqn:D;
      [discriminate|].
    exact (b64decode_raise _ _ D).
  - exists "QUJD!!", [65; 66; 67]. split; [discriminate|].
    now rewrite process_base64_image_run, decode_or_422_run.
Qed.

Lemma lenient_decoding_witness :
  process_base64_image "data:image/gif;base64,R0lG ODlh!!" Stub.offline
  = decode_or_422 "R0lGODlh" Stub.offline
  /\ fst (process_base64_image "data:image/gif;base64,R0lG ODlh!!" Stub.offline)
     = Ok [71; 73; 70; 56; 57; 97].
Proof.
  split.
  - exact (proj1 (lenient_decoding "data:image/gif;base64,R0lG ODlh!!"
                    "R0lG ODlh!!" Stub.offline eq_refl) eq_refl).
  - reflexivity.
Defined.

(* ===================================================================== *)
(** ** Encoding and decoding *)
(* ===================================================================== *)

Section RoundTrip.

Import Base64.

Lemma all_below_spec (n : nat) (P : Z -> bool) :
  all_below n P = true -> forall z, 0 <= z < Z.of_nat n -> P z = true.
Proof.
  induction n as [|n IH]; intros H z Hz; [lia|].
  cbn [all_below] in H. apply andb_true_iff in H as [Hn Hrest].
  destruct (Z.eq_dec z (Z.of_nat n)) as [->|Hne]; [exact Hn|].
  apply IH; [exact Hrest | lia].
Qed.

Lemma all_bytes (P : Z -> bool) :
  all_below 256 P = true -> forall x, is_byte x -> P x = true.
Proof. intros H x Hx. apply (all_below_spec 256 P H). exact Hx. Qed.

Lemma all_byte_pairs (P : Z -> Z -> bool) :
  all_below 256 (fun x => all_below 256 (P x)) = true ->
  forall x y, is_byte x -> is_byte y -> P x y = true.
Proof.
  intros H x y Hx Hy.
  apply (all_bytes (P x)); [|exact Hy].
  exact (all_bytes (fun x => all_below 256 (P x)) H x Hx).
Qed.

Lemma sextet_range (v : Z) : sextet v = true -> 0 <= v < 64.
Proof. unfold sextet. intros H. apply andb_true_iff in H as [H1 H2]. lia. Qed.

(** The digit table and its inverse. *)
Lemma table_round_trip (v : Z) :
  0 <= v < 64 ->
  table_a2b_base64 (table_b2a_base64 v) = v
  /\ (table_b2a_base64 v =? BASE64_PAD) = false
  /\ 0 <= table_b2a_base64 v < 128.
Proof.
  intros Hv.
  assert (H : ((table_a2b_base64 (table_b2a_base64 v) =? v)
               && negb (table_b2a_base64 v =? BASE64_PAD)
               && ((0 <=? table_b2a_base64 v) && (table_b2a_base64 v <? 128)))
              = true).
  { revert v Hv.
    apply (all_below_spec 64
             (fun v => (table_a2b_base64 (table_b2a_base64 v) =? v)
                       && negb (table_b2a_base64 v =? BASE64_PAD)
                       && ((0 <=? table_b2a_base64 v)
                           && (table_b2a_base64 v <? 128)))).
    vm_compute. reflexivity. }
  apply andb_true_iff in H as [H H3]. apply andb_true_iff in H as [H1 H2].
  apply andb_true_iff in H3 as [H3 H4].
  apply Z.eqb_eq in H1. apply negb_true_iff in H2. lia.
Qed.

(** The four 6-bit values of a group, and the bytes the decoder rebuilds
    from them. *)
Lemma first_sextets (x y : Z) :
  is_byte x -> is_byte y ->
  0 <= Z.shiftr x 2 < 64
  /\ 0 <= Z.lor (Z.shiftl (Z.land x 3) 4) (Z.shiftr y 4) < 64
  /\ 0 <= Z.shiftl (Z.land x 3) 4 < 64
  /\ u8 (Z.lor (Z.shiftl (Z.shiftr x 2) 2)
           (Z.shiftr (Z.lor (Z.shiftl (Z.land x 3) 4) (Z.shiftr y 4)) 4)) = x
  /\ u8 (Z.lor (Z.shiftl (Z.shiftr x 2) 2)
           (Z.shiftr (Z.shiftl (Z.land x 3) 4) 4)) = x
  /\ Z.land (Z.lor (Z.shiftl (Z.land x 3) 4) (Z.shiftr y 4)) 15 = Z.shiftr y 4.
Proof.
  intros Hx Hy.
  pose (P := fun x y =>
    sextet (Z.shiftr x 2)
    && sextet (Z.lor (Z.shiftl (Z.land x 3) 4) (Z.shiftr y 4))
    && sextet (Z.shiftl (Z.land x 3) 4)
    && (u8 (Z.lor (Z.shiftl (Z.shiftr x 2) 2)
              (Z.shiftr (Z.lor (Z.shiftl (Z.land x 3) 4) (Z.shiftr y 4)) 4))
        =? x)
    && (u8 (Z.lor (Z.shiftl (Z.shiftr x 2) 2)
              (Z.shiftr (Z.shiftl (Z.land x 3) 4) 4)) =? x)
    && (Z.land (Z.lor (Z.shiftl (Z.land x 3) 4) (Z.shiftr y 4)) 15
        =? Z.shiftr y 4)).
  assert (H : P x y = true).
  { apply all_byte_pairs; [vm_compute; reflexivity | exact Hx | exact Hy]. }
  unfold P in H.
  repeat (apply andb_true_iff in H as [H ?]).
  repeat match goal with
         | E : sextet _ = true |- _ => apply sextet_range in E
         | E : (_ =? _) = true |- _ => apply Z.eqb_eq in E
         end.
  repeat split; try lia; assumption.
Qed.

Lemma last_sextets (y z : Z) :
  is_byte y -> is_byte z ->
  0 <= Z.lor (Z.shiftl (Z.land y 15) 2) (Z.shiftr z 6) < 64
  /\ 0 <= Z.shiftl (Z.land y 15) 2 < 64
  /\ 0 <= Z.land z 63 < 64
  /\ u8 (Z.lor (Z.shiftl (Z.shiftr y 4) 4)
           (Z.shiftr (Z.lor (Z.shiftl (Z.land y 15) 2) (Z.shiftr z 6)) 2)) = y
  /\ u8 (Z.lor (Z.shiftl (Z.shiftr y 4) 4)
           (Z.shiftr (Z.shiftl (Z.land y 15) 2) 2)) = y
  /\ u8 (Z.lor (Z.shiftl
                  (Z.land (Z.lor (Z.shiftl (Z.land y 15) 2) (Z.shiftr z 6)) 3)
                  6)
           (Z.land z 63)) = z.
Proof.
  intros Hy Hz.
  pose (P := fun y z =>
    sextet (Z.lor (Z.shiftl (Z.land y 15) 2) (Z.shiftr z 6))
    && sextet (Z.shiftl (Z.land y 15) 2)
    && sextet (Z.land z 63)
    && (u8 (Z.lor (Z.shiftl (Z.shiftr y 4) 4)
              (Z.shiftr (Z.lor (Z.shiftl (Z.land y 15) 2) (Z.shiftr z 6)) 2))
        =? y)
    && (u8 (Z.lor (Z.shiftl (Z.shiftr y 4) 4)
              (Z.shiftr (Z.shiftl (Z.land y 15) 2) 2)) =? y)
    && (u8 (Z.lor (Z.shiftl
                     (Z.land (Z.lor (Z.shiftl (Z.land y 15) 2) (Z.shiftr z 6)) 3)
                     6)
              (Z.land z 63)) =? z)).
  assert (H : P y z = true).
  { apply all_byte_pairs; [vm_compute; reflexivity | exact Hy | exact Hz]. }
  unfold P in H.
  repeat (apply andb_true_iff in H as [H ?]).
  repeat match goal with
         | E : sextet _ = true |- _ => apply sextet_range in E
         | E : (_ =? _) = true |- _ => apply Z.eqb_eq in E
         end.
  repeat split; try lia; assumption.
Qed.

(** One step of the decoder on the digit of [v]. *)
Lemma a2b_loop_digit (v : Z) (rest : bytes) (q l p : Z) (out : bytes) :
  0 <= v < 64 ->
  a2b_loop (table_b2a_base64 v :: rest) q l p out =
  if q =? 0 then a2b_loop rest 1 v 0 out
  else if q =? 1 then
    a2b_loop rest 2 (Z.land v 15) 0
             (out ++ [u8 (Z.lor (Z.shiftl l 2) (Z.shiftr v 4))])
  else if q =? 2 then
    a2b_loop rest 3 (Z.land v 3) 0
             (out ++ [u8 (Z.lor (Z.shiftl l 4) (Z.shiftr v 2))])
  else a2b_loop rest 0 0 0 (out ++ [u8 (Z.lor (Z.shiftl l 6) v)]).
Proof.
  intros Hv. destruct (table_round_trip v Hv) as [T [Np _]].
  cbn [a2b_loop]. rewrite Np. cbv zeta. rewrite T.
  assert (E : (64 <=? v) = false) by (apply Z.leb_gt; lia).
  now rewrite E.
Qed.

Lemma bytes_ind3 (P : bytes -> Prop) :
  P [] ->
  (forall a, P [a]) ->
  (forall a b, P [a; b]) ->
  (forall a b c l, P l -> P (a :: b :: c :: l)) ->
  forall l, P l.
Proof.
  intros H0 H1 H2 H3 l.
  assert (H : P l /\ (forall a, P (a :: l)) /\ (forall a b, P (a :: b :: l))).
  { induction l as [|c l [IH0 [IH1 IH2]]]; [now repeat split|].
    split; [apply IH1 | split; [intros a; apply IH2 | intros a b; now apply H3]]. }
  exact (proj1 H).
Qed.

(** The decoder on the encoding of [data], followed by anything: it gives
    back [data]; it stops at the padding when the last group is short, and
    goes on in what follows otherwise. *)
Lemma a2b_loop_b2a (data : bytes) :
  Forall is_byte data ->
  forall tail out,
    a2b_loop (b2a_base64 data ++ tail) 0 0 0 out =
    if ends_padded data then Ok (out ++ data)
    else a2b_loop tail 0 0 0 (out ++ data).
Proof.
  induction data as [|a|a b|a b c l IH] using bytes_ind3; intros F tail out.
  - cbn [b2a_base64 ends_padded List.app]. now rewrite app_nil_r.
  - inversion F as [|? ? Ha _]; subst.
    destruct (first_sextets a a Ha Ha) as (S0 & _ & S1 & _ & B0 & _).
    cbn [b2a_base64 ends_padded List.app].
    rewrite (a2b_loop_digit _ _ 0) by exact S0. cbn [Z.eqb].
    rewrite (a2b_loop_digit _ _ 1) by exact S1. cbn [Z.eqb Pos.eqb].
    rewrite B0. reflexivity.
  - inversion F as [|? ? Ha F']; subst. inversion F' as [|? ? Hb _]; subst.
    destruct (first_sextets a b Ha Hb) as (S0 & S1 & _ & B0 & _ & L1).
    destruct (last_sextets b b Hb Hb) as (_ & S2 & _ & _ & B1 & _).
    cbn [b2a_base64 ends_padded List.app].
    rewrite (a2b_loop_digit _ _ 0) by exact S0. cbn [Z.eqb].
    rewrite (a2b_loop_digit _ _ 1) by exact S1. cbn [Z.eqb Pos.eqb].
    rewrite (a2b_loop_digit _ _ 2) by exact S2. cbn [Z.eqb Pos.eqb].
    rewrite B0, L1, B1. cbn [a2b_loop]. cbn. now rewrite <- app_assoc.
  - inversion F as [|? ? Ha F']; subst. inversion F' as [|? ? Hb F'']; subst.
    inversion F'' as [|? ? Hc Fl]; subst.
    destruct (first_sextets a b Ha Hb) as (S0 & S1 & _ & B0 & _ & L1).
    destruct (last_sextets b c Hb Hc) as (S2 & _ & S3 & B1 & _ & B2).
    cbn [b2a_base64 ends_padded List.app].
    rewrite (a2b_loop_digit _ _ 0) by exact S0. cbn [Z.eqb].
    rewrite (a2b_loop_digit _ _ 1) by exact S1. cbn [Z.eqb Pos.eqb].
    rewrite (a2b_loop_digit _ _ 2) by exact S2. cbn [Z.eqb Pos.eqb].
    rewrite (a2b_loop_digit _ _ 3) by exact S3. cbn [Z.eqb Pos.eqb].
    rewrite B0, L1, B1, B2. rewrite (IH Fl).
    now rewrite <- !app_assoc.
Qed.

End RoundTrip.

(* ===================================================================== *)
(** ** Encoded text *)
(* ===================================================================== *)

Section EncodedText.

Import Base64.

Lemma append_nil_r (s : string) : s +:+ "" = s.
Proof. induction s as [|c s IH]; cbn; [reflexivity | now rewrite IH]. Qed.

Lemma list_ascii_append (a b : string) :
  list_ascii_of_string (a +:+ b)
  = list_ascii_of_string a ++ list_ascii_of_string b.
Proof. induction a as [|c a IH]; cbn; [reflexivity | now rewrite IH]. Qed.

Lemma isascii_append (a b : string) :
  PyStr.isascii (a +:+ b) = PyStr.isascii a && PyStr.isascii b.
Proof. unfold PyStr.isascii. now rewrite list_ascii_append, forallb_app. Qed.

Lemma encode_ascii_append (a b : string) :
  encode_ascii (a +:+ b) = encode_ascii a ++ encode_ascii b.
Proof. unfold encode_ascii. now rewrite list_ascii_append, map_app. Qed.

Lemma encode_ascii_length (s : string) :
  List.length (encode_ascii s) = String.length s.
Proof.
  unfold encode_ascii. rewrite length_map.
  induction s as [|c s IH]; cbn; [reflexivity | now rewrite IH].
Qed.

Lemma ord_chr (c : Z) : 0 <= c < 256 -> PyStr.ord (PyStr.chr c) = c.
Proof.
  intros H. unfold PyStr.ord, PyStr.chr.
  rewrite N_ascii_embedding by lia. lia.
Qed.

(** The encoder writes digits and ['='] only. *)
Lemma b2a_base64_chars (data : bytes) :
  Forall is_byte data ->
  Forall (fun c => 0 <= c < 128 /\ significant c = true) (b2a_base64 data).
Proof.
  assert (D : forall v, 0 <= v < 64 ->
                        0 <= table_b2a_base64 v < 128
                        /\ significant (table_b2a_base64 v) = true).
  { intros v Hv. destruct (table_round_trip v Hv) as (T & _ & Rg).
    split; [exact Rg|]. unfold significant. rewrite T.
    apply orb_true_iff. right. apply Z.ltb_lt. lia. }
  assert (Pd : 0 <= BASE64_PAD < 128 /\ significant BASE64_PAD = true)
    by (split; [unfold BASE64_PAD; lia | reflexivity]).
  induction data as [|a|a b|a b c l IH] using bytes_ind3; intros F.
  - constructor.
  - inversion F as [|? ? Ha _]; subst.
    destruct (first_sextets a a Ha Ha) as (S0 & _ & S1 & _).
    cbn [b2a_base64].
    repeat (constructor; [first [apply D; assumption | exact Pd]|]).
    constructor.
  - inversion F as [|? ? Ha F']; subst. inversion F' as [|? ? Hb _]; subst.
    destruct (first_sextets a b Ha Hb) as (S0 & S1 & _).
    destruct (last_sextets b b Hb Hb) as (_ & S2 & _).
    cbn [b2a_base64].
    repeat (constructor; [first [apply D; assumption | exact Pd]|]).
    constructor.
  - inversion F as [|? ? Ha F']; subst. inversion F' as [|? ? Hb F'']; subst.
    inversion F'' as [|? ? Hc Fl]; subst.
    destruct (first_sextets a b Ha Hb) as (S0 & S1 & _).
    destruct (last_sextets b c Hb Hc) as (S2 & _ & S3 & _).
    cbn [b2a_base64].
    repeat (constructor; [apply D; assumption|]). now apply IH.
Qed.

Lemma encode_b64encode (data : bytes) :
  Forall is_byte data -> encode_ascii (b64encode data) = b2a_base64 data.
Proof.
  intros F. unfold encode_ascii, b64encode.
  rewrite list_ascii_of_string_of_list_ascii, map_map.
  pose proof (b2a_base64_chars data F) as C.
  induction C as [|c l [Hc _] _ IH]; [reflexivity|].
  cbn [map]. rewrite IH. f_equal. apply ord_chr. lia.
Qed.

Lemma isascii_b64encode (data : bytes) :
  Forall is_byte data -> PyStr.isascii (b64encode data) = true.
Proof.
  intros F. unfold PyStr.isascii, b64encode.
  rewrite list_ascii_of_string_of_list_ascii.
  pose proof (b2a_base64_chars data F) as C.
  induction C as [|c l [Hc _] _ IH]; [reflexivity|].
  cbn [map forallb]. rewrite IH, ord_chr by lia.
  apply andb_true_iff. split; [apply Z.ltb_lt; lia | reflexivity].
Qed.

Lemma b64encode_no_marker (data : bytes) :
  Forall is_byte data -> PyStr.contains "base64," (b64encode data) = false.
Proof.
  intros F. apply significant_no_marker. unfold b64encode.
  rewrite list_ascii_of_string_of_list_ascii.
  pose proof (b2a_base64_chars data F) as C.
  induction C as [|c l [Hc Hs] _ IH]; [reflexivity|].
  cbn [map forallb]. rewrite IH, ord_chr by lia. now rewrite Hs.
Qed.

(** Decoding the encoding of [data] followed by ASCII text. *)
Lemma b64decode_b64encode_append (data : bytes) (tail : string) :
  Forall is_byte data ->
  PyStr.isascii tail = true ->
  b64decode (b64encode data +:+ tail) =
  if ends_padded data then Ok data
  else a2b_loop (encode_ascii tail) 0 0 0 data.
Proof.
  intros F A. unfold b64decode, a2b_base64.
  rewrite isascii_append, (isascii_b64encode data F), A. cbn [andb].
  rewrite encode_ascii_append, (encode_b64encode data F).
  rewrite (a2b_loop_b2a data F). reflexivity.
Qed.

Lemma b64decode_b64encode (data : bytes) :
  Forall is_byte data -> b64decode (b64encode data) = Ok data.
Proof.
  intros F. rewrite <- (append_nil_r (b64encode data)).
  rewrite (b64decode_b64encode_append data "" F eq_refl).
  now destruct (ends_padded data).
Qed.

(** Without ['='] in the input the loop runs to its end, where [quad_pos]
    is the number of digits modulo 4. *)
Lemma a2b_loop_unpadded (data : bytes) :
  forallb (fun c => negb (c =? BASE64_PAD)) data = true ->
  forall q l p out,
    0 <= q < 4 ->
    exists out', a2b_loop data q l p out
                 = a2b_finish ((q + digits data) mod 4) out'.
Proof.
  unfold digits.
  induction data as [|c data IH]; intros Hp q l p out Hq.
  - exists out. cbn. rewrite Z.add_0_r, Z.mod_small by lia. reflexivity.
  - cbn [forallb] in Hp. apply andb_true_iff in Hp as [Hc Hp].
    apply negb_true_iff in Hc.
    cbn [a2b_loop filter]. unfold is_digit at 1. rewrite Hc. cbv zeta.
    cbn [negb andb].
    destruct (table_a2b_base64 c <? 64) eqn:Edig.
    + assert (E64 : (64 <=? table_a2b_base64 c) = false)
        by (apply Z.leb_gt; apply Z.ltb_lt in Edig; lia).
      rewrite E64. cbn [List.length]. rewrite Nat2Z.inj_succ.
      assert (Hcase : q = 0 \/ q = 1 \/ q = 2 \/ q = 3) by lia.
      destruct Hcase as [-> | [-> | [-> | ->]]]; cbn [Z.eqb Pos.eqb].
      * destruct (IH Hp 1 (table_a2b_base64 c) 0 out) as [o Ho]; [lia|].
        exists o. rewrite Ho. do 2 f_equal. lia.
      * destruct (IH Hp 2 (Z.land (table_a2b_base64 c) 15) 0
                    (out ++ [u8 (Z.lor (Z.shiftl l 2)
                                   (Z.shiftr (table_a2b_base64 c) 4))]))
          as [o Ho]; [lia|].
        exists o. rewrite Ho. do 2 f_equal. lia.
      * destruct (IH Hp 3 (Z.land (table_a2b_base64 c) 3) 0
                    (out ++ [u8 (Z.lor (Z.shiftl l 4)
                                   (Z.shiftr (table_a2b_base64 c) 2))]))
          as [o Ho]; [lia|].
        exists o. rewrite Ho. do 2 f_equal. lia.
      * destruct (IH Hp 0 0 0
                    (out ++ [u8 (Z.lor (Z.shiftl l 6) (table_a2b_base64 c))]))
          as [o Ho]; [lia|].
        exists o. rewrite Ho. f_equal.
        replace (3 + Z.succ (Z.of_nat (List.length (filter is_digit data))))
          with (0 + Z.of_nat (List.length (filter is_digit data)) + 1 * 4)
          by lia.
        now rewrite Z.mod_add by lia.
    + assert (E64 : (64 <=? table_a2b_base64 c) = true)
        by (apply Z.leb_le; apply Z.ltb_ge in Edig; lia).
      rewrite E64. now apply IH.
Qed.

(** Three bytes at most for four input characters. *)
Lemma a2b_loop_size (data : bytes) :
  forall q l p out res,
    0 <= q < 4 ->
    a2b_loop data q l p out = Ok res ->
    4 * Z.of_nat (List.length res)
    <= 4 * Z.of_nat (List.length out) + 3 * Z.of_nat (List.length data)
       + (4 - q) mod 4.
Proof.
  induction data as [|c data IH]; intros q l p out res Hq H.
  - cbn in H. unfold a2b_finish in H.
    destruct (q =? 0) eqn:E0;
      [|destruct (q =? 1); discriminate].
    apply Z.eqb_eq in E0. subst q. inversion H; subst res. cbn. lia.
  - assert (Hcase : q = 0 \/ q = 1 \/ q = 2 \/ q = 3) by lia.
    pose proof (Z.mod_pos_bound (4 - q) 4 eq_refl) as Hcredit.
    cbn [a2b_loop] in H. cbv zeta in H. cbn [List.length].
    rewrite Nat2Z.inj_succ.
    destruct (c =? BASE64_PAD).
    + destruct ((2 <=? q) && (4 <=? q + (p + 1))).
      * inversion H; subst res. lia.
      * apply IH in H; [|lia]. lia.
    + destruct (64 <=? table_a2b_base64 c).
      * apply IH in H; [|lia]. lia.
      * destruct Hcase as [-> | [-> | [-> | ->]]]; cbn [Z.eqb Pos.eqb] in H;
          apply IH in H; try lia;
          rewrite ?length_app, ?Nat2Z.inj_add in H; cbn [List.length] in H;
          change ((4 - 0) mod 4) with 0 in *;
          change ((4 - 1) mod 4) with 3 in *;
          change ((4 - 2) mod 4) with 2 in *;
          change ((4 - 3) mod 4) with 1 in *;
          lia.
Qed.

End EncodedText.

(* ===================================================================== *)
(** ** Further properties of the handlers *)
(* ===================================================================== *)

Lemma split_nonempty (sep s : string) : PyStr.split s sep <> [].
Proof.
  unfold PyStr.split. destruct (String.length s); cbn [PyStr.split_rounds];
    [discriminate|].
  now destruct (PyStr.partition sep s) as [[a b]|].
Qed.

Lemma join_cons (sep piece : string) (rest : list string) :
  rest <> [] ->
  PyStr.join sep (piece :: rest) = piece +:+ sep +:+ PyStr.join sep rest.
Proof. intros H. destruct rest; [congruence | reflexivity]. Qed.

(** What [split] returns, for every length of the subject. *)
Lemma split_pieces (sep : string) :
  sep <> "" ->
  forall n s,
    (String.length s <= n)%nat ->
    PyStr.join sep (PyStr.split s sep) = s
    /\ Forall (fun piece => PyStr.contains sep piece = false)
              (PyStr.split s sep).
Proof.
  intros Hne. induction n as [|n IH]; intros s Hn.
  - destruct s; [|cbn in Hn; lia].
    rewrite (split_unfold sep Hne).
    assert (P : PyStr.partition sep "" = None)
      by (destruct sep; [congruence | reflexivity]).
    rewrite P. split; [reflexivity|].
    constructor; [now apply partition_None | constructor].
  - rewrite (split_unfold sep Hne).
    destruct (PyStr.partition sep s) as [[a b]|] eqn:P.
    + pose proof (partition_length _ _ _ _ P) as L.
      pose proof (sep_length_pos sep Hne) as Lp.
      destruct (IH b) as [J F]; [lia|].
      split.
      * rewrite join_cons by apply split_nonempty.
        rewrite J. symmetry. now apply partition_Some.
      * constructor; [exact (partition_before_clean sep Hne _ _ _ P) | exact F].
    + split; [reflexivity|].
      constructor; [now apply partition_None | constructor].
Qed.

(** The text handed to the decoder is a slice of the input, without
    marker. *)
Lemma first_segment_slice (s : string) :
  exists before after,
    s = before +:+ first_segment s +:+ after
    /\ PyStr.contains "base64," (first_segment s) = false.
Proof.
  assert (Hne : "base64," <> "") by discriminate.
  unfold first_segment.
  destruct (PyStr.partition "base64," s) as [[a rest]|] eqn:P.
  - pose proof (partition_Some _ _ _ _ P) as Es.
    destruct (PyStr.partition "base64," rest) as [[seg rest']|] eqn:P'.
    + pose proof (partition_Some _ _ _ _ P') as Er.
      exists (a +:+ "base64,"), ("base64," +:+ rest'). split.
      * rewrite Es, Er at 1. now rewrite !append_assoc.
      * exact (partition_before_clean _ Hne _ _ _ P').
    + exists (a +:+ "base64,"), "". split.
      * rewrite append_nil_r, append_assoc. exact Es.
      * now apply partition_None.
  - exists "", "". split.
    + now rewrite append_nil_r.
    + now apply partition_None.
Qed.

Lemma first_segment_length (s : string) :
  (String.length (first_segment s) <= String.length s)%nat.
Proof.
  destruct (first_segment_slice s) as (before & after & E & _).
  rewrite E at 2. rewrite !append_length. lia.
Qed.

(** X1.  [download_image] returns bytes exactly when the call of
    [requests.get] returns a response whose status is not between 400 and
    599; the bytes are the response body, untouched, and what was sent is
    what that one call sent. *)
Theorem download_image_succeeds_iff
    (url : string) (w w' : World) (b : bytes) :
  download_image url w = (Ok b, w')
  <-> (exists response,
          network w url 10 = Ok response
          /\ ~ (400 <= Requests.status_code response < 600)
          /\ b = Requests.content response)
      /\ w' = after_fetch url w.
Proof.
  rewrite download_image_run. split.
  - intros H.
    destruct (network w url 10) as [response|e] eqn:N; [|discriminate].
    destruct (Requests.raise_for_status response) as [u|e] eqn:S;
      [|discriminate].
    inversion H; subst b w'. split; [|reflexivity].
    exists response. repeat split.
    intros Hst. apply raise_for_status_raises in Hst as [e He]. congruence.
  - intros [[response (N & Hst & ->)] ->]. rewrite N.
    destruct (Requests.raise_for_status response) as [u|e] eqn:S;
      [reflexivity|].
    exfalso. apply Hst. apply raise_for_status_raises. now exists e.
Qed.

(** X2.  Only a [image_url] request sends anything: what its one call
    [requests.get(input, timeout=10)] sends, be it nothing (a URL the
    library refuses), one request or several (redirects), and whether the
    request then succeeds or fails.  Text and base64 requests send
    nothing. *)
Theorem only_url_requests_fetch
    (R : Runtime) (request : EmbeddingRequest) (w : World) :
  fetches (snd (get_embeddings R request w))
  = fetches w
    ++ match type request with
       | image_url => sent_by_get (input request) 10 w
       | _ => []
       end.
Proof.
  destruct request as [[| |] inp];
    unfold get_embeddings, try_except, bind, lift, ret, raise, print, BytesIO;
    cbn [type input].
  - rewrite app_nil_r.
    destruct (tokenize R inp) as [x|e]; [|reflexivity].
    destruct (encode_text R x) as [rows|e]; [|reflexivity].
    now destruct (getitem rows 0).
  - rewrite download_image_run.
    destruct (network w inp 10) as [response|e]; [|reflexivity].
    destruct (Requests.raise_for_status response); [|reflexivity].
    destruct (Image_open R _) as [i|e]; [|reflexivity].
    destruct (preprocess R i) as [x|e]; [|reflexivity].
    destruct (encode_image R x) as [rows|e]; [|reflexivity].
    now destruct (getitem rows 0).
  - rewrite app_nil_r, process_base64_image_run, decode_or_422_run.
    destruct (Base64.b64decode (first_segment inp)) as [b|e]; [|reflexivity].
    destruct (Image_open R _) as [i|e]; [|reflexivity].
    destruct (preprocess R i) as [x|e]; [|reflexivity].
    destruct (encode_image R x) as [rows|e]; [|reflexivity].
    now destruct (getitem rows 0).
Qed.

(** X3.  A request that succeeds prints one line, ["Embedding length: n"]
    with [n] the dimension it reports; a request that fails prints
    nothing. *)
Theorem one_line_per_success
    (R : Runtime) (request : EmbeddingRequest) (w : World) :
  (exists embedding,
      fst (get_embeddings R request w) = Ok (success_body _ embedding)
      /\ stdout (snd (get_embeddings R request w))
         = stdout w
           ++ ["Embedding length: "
               +:+ PyStr.str_of_nat (List.length embedding)])
  \/ (exists e,
         fst (get_embeddings R request w) = Raise e
         /\ stdout (snd (get_embeddings R request w)) = stdout w).
Proof.
  destruct request as [[| |] inp];
    unfold get_embeddings, try_except, bind, lift, ret, raise, print, BytesIO;
    cbn [type input].
  - destruct (tokenize R inp) as [x|e]; [|right; eexists; now split].
    destruct (encode_text R x) as [rows|e]; [|right; eexists; now split].
    destruct (getitem rows 0) as [emb|e];
      [left; exists emb; now split | right; eexists; now split].
  - rewrite download_image_run.
    destruct (network w inp 10) as [response|e]; [|right; eexists; now split].
    destruct (Requests.raise_for_status response);
      [|right; eexists; now split].
    destruct (Image_open R _) as [i|e];
      [|right; eexists; now split].
    destruct (preprocess R i) as [x|e]; [|right; eexists; now split].
    destruct (encode_image R x) as [rows|e]; [|right; eexists; now split].
    destruct (getitem rows 0) as [emb|e];
      [left; exists emb; now split | right; eexists; now split].
  - rewrite process_base64_image_run, decode_or_422_run.
    destruct (Base64.b64decode (first_segment inp)) as [b|e];
      [|right; eexists; now split].
    destruct (Image_open R _) as [i|e]; [|right; eexists; now split].
    destruct (preprocess R i) as [x|e]; [|right; eexists; now split].
    destruct (encode_image R x) as [rows|e]; [|right; eexists; now split].
    destruct (getitem rows 0) as [emb|e];
      [left; exists emb; now split | right; eexists; now split].
Qed.

(** X4.  The two image inputs are treated alike once normalised: when a
    URL's download gives the bytes [b] and a base64 string decodes to the
    same [b], one request succeeds exactly when the other does, and with
    the same dict (the image library opening a stream by its contents). *)
Theorem same_bytes_same_answer
    (R : Runtime) (url s : string) (b : bytes) (w1 w1' w2 w2' : World)
    (by_contents : opens_by_contents R)
    (downloaded : download_image url w1 = (Ok b, w1'))
    (decoded : process_base64_image s w2 = (Ok b, w2')) :
  forall d,
    fst (get_embeddings R {| type := image_url; input := url |} w1) = Ok d
    <-> fst (get_embeddings R {| type := image_base64; input := s |} w2) = Ok d.
Proof.
  intros d.
  pose proof (download_returns w1 url b w1' downloaded) as N1.
  pose proof (base64_returns w2 s b w2' decoded) as N2.
  split.
  - exact (image_answers_agree R _ _ b _ _ _ _ by_contents N1 N2 d).
  - exact (image_answers_agree R _ _ b _ _ _ _ by_contents N2 N1 d).
Qed.

Lemma same_bytes_same_answer_witness :
  fst (get_embeddings Stub.runtime
         {| type := image_base64; input := "R0lGODlh" |} Stub.offline)
  = Ok (success_body Z (repeat 0 512)).
Proof.
  exact (proj1 (same_bytes_same_answer Stub.runtime
                  "http://example.com/cat.gif" "R0lGODlh"
                  [71; 73; 70; 56; 57; 97]
                  (Stub.answering 200 "OK")
                  (after_fetch "http://example.com/cat.gif"
                     (Stub.answering 200 "OK"))
                  Stub.offline Stub.offline
                  stub_opens_by_contents eq_refl eq_refl _)
           eq_refl).
Defined.

(** X5.  Of the rows the text encoder returns only the first is used; when
    it returns no row, [tolist()[0]] fails and the request is answered
    with 422 and the detail ["list index out of range"], nothing
    printed. *)
Theorem first_row_is_the_embedding
    (R : Runtime) (t : string) (x : tokens R) (rows : list (list (float R)))
    (w : World)
    (tokenized : tokenize R t = Ok x)
    (encoded : encode_text R x = Ok rows) :
  app R (POST_embeddings {| type := text; input := t |}) w
  = match rows with
    | [] => (error_422 _ "list index out of range", w)
    | row :: _ =>
        ({| status := 200; body := VDict (success_body _ row) |},
         after_print (List.length row) w)
    end.
Proof.
  unfold app, route, get_embeddings, try_except, bind, lift, ret, raise, print, BytesIO.
  cbn [type input]. rewrite tokenized, encoded.
  now destruct rows.
Qed.

Lemma first_row_is_the_embedding_witness :
  app Stub.runtime
    (POST_embeddings {| type := text; input := "a photo of a cat" |})
    Stub.offline
  = ({| status := 200; body := VDict (success_body Z (repeat 0 512)) |},
     after_print 512 Stub.offline).
Proof.
  exact (first_row_is_the_embedding Stub.runtime "a photo of a cat"
           (Base64.encode_ascii "a photo of a cat") [repeat 0 512]
           Stub.offline eq_refl eq_refl).
Defined.

(** X6.  [split] and [join] are inverse for a non-empty separator: joining
    the pieces gives back the subject; no piece holds the separator; and
    there are two pieces or more exactly when the separator occurs ([in]),
    which is why the index [1] taken after the [in] test is in range. *)
Theorem split_join_round_trip
    (sep s : string) (sep_nonempty : sep <> "") :
  PyStr.join sep (PyStr.split s sep) = s
  /\ Forall (fun piece => PyStr.contains sep piece = false) (PyStr.split s sep)
  /\ (PyStr.contains sep s = true <-> (2 <= List.length (PyStr.split s sep))%nat).
Proof.
  destruct (split_pieces sep sep_nonempty (String.length s) s (le_n _))
    as [J F].
  repeat split; try assumption.
  - intros C. rewrite (split_unfold sep sep_nonempty).
    rewrite partition_contains in C.
    destruct (PyStr.partition sep s) as [[a b]|]; [|discriminate].
    pose proof (split_nonempty sep b) as N.
    destruct (PyStr.split b sep); [congruence | cbn; lia].
  - intros L. rewrite (split_unfold sep sep_nonempty) in L.
    rewrite partition_contains.
    destruct (PyStr.partition sep s) as [[a b]|]; [reflexivity | cbn in L; lia].
Qed.

Lemma split_join_round_trip_witness :
  PyStr.join "base64," (PyStr.split "data:image/png;base64,QUJD" "base64,")
  = "data:image/png;base64,QUJD".
Proof.
  assert (H : "base64," <> "") by discriminate.
  exact (proj1 (split_join_round_trip "base64," "data:image/png;base64,QUJD" H)).
Defined.

(** X7.  The index [1] in [process_base64_image] never fails: for every
    input a payload is handed to the decoder; it is a slice of the input
    and holds no ["base64,"]. *)
Theorem payload_index_in_bounds (s : string) :
  exists payload before after,
    base64_payload s = Ok payload
    /\ s = before +:+ payload +:+ after
    /\ PyStr.contains "base64," payload = false.
Proof.
  destruct (first_segment_slice s) as (before & after & E & C).
  exists (first_segment s), before, after.
  split; [apply base64_payload_segment | now split].
Qed.

(** X8.  Round trip: the standard base64 text of any bytes, sent bare or
    behind a data-URL header, is decoded by [process_base64_image] to
    exactly those bytes. *)
Theorem base64_round_trip
    (data : bytes) (mime : string) (w : World)
    (data_bytes : Forall Base64.is_byte data)
    (mime_clean : PyStr.contains "base64," mime = false) :
  process_base64_image (Base64.b64encode data) w = (Ok data, w)
  /\ process_base64_image (data_url_header mime +:+ Base64.b64encode data) w
     = (Ok data, w).
Proof.
  pose proof (b64encode_no_marker data data_bytes) as C.
  split; rewrite process_base64_image_run, decode_or_422_run.
  - rewrite (first_segment_plain _ C).
    now rewrite (b64decode_b64encode data data_bytes).
  - rewrite (first_segment_data_url _ _ mime_clean C).
    now rewrite (b64decode_b64encode data data_bytes).
Qed.

Lemma bytes_GIF : Forall Base64.is_byte [71; 73; 70; 56; 57; 97].
Proof. repeat constructor; unfold Base64.is_byte; lia. Defined.

Lemma base64_round_trip_witness :
  process_base64_image "data:image/gif;base64,R0lGODlh" Stub.offline
  = (Ok [71; 73; 70; 56; 57; 97], Stub.offline).
Proof.
  exact (proj2 (base64_round_trip [71; 73; 70; 56; 57; 97] "image/gif"
                  Stub.offline bytes_GIF eq_refl)).
Defined.

(** X9.  When the encoding ends with ['='], whatever ASCII text follows it
    is ignored: the decoder stops at the padding. *)
Theorem text_after_padding_is_ignored
    (s tail : string) (data : bytes) (w : World)
    (data_bytes : Forall Base64.is_byte data)
    (padded : Base64.ends_padded data = true)
    (tail_ascii : PyStr.isascii tail = true)
    (stripped : base64_payload s = Ok (Base64.b64encode data +:+ tail)) :
  process_base64_image s w = (Ok data, w).
Proof.
  rewrite base64_payload_segment in stripped. inversion stripped as [E].
  rewrite process_base64_image_run, decode_or_422_run, E.
  rewrite (b64decode_b64encode_append data tail data_bytes tail_ascii).
  now rewrite padded.
Qed.

Lemma text_after_padding_is_ignored_witness :
  process_base64_image "QUI=, and more" Stub.offline
  = (Ok [65; 66], Stub.offline).
Proof.
  assert (F : Forall Base64.is_byte [65; 66])
    by (repeat constructor; unfold Base64.is_byte; lia).
  exact (text_after_padding_is_ignored "QUI=, and more" ", and more" [65; 66]
           Stub.offline F eq_refl eq_refl eq_refl).
Defined.

(** X10.  Line breaks, spaces and other ASCII characters outside the
    alphabet may be spread over the payload: when what remains after
    dropping them is the standard encoding of [data], [data] is what
    [process_base64_image] returns. *)
Theorem wrapped_base64_decodes
    (s payload : string) (data : bytes) (w : World)
    (data_bytes : Forall Base64.is_byte data)
    (stripped : base64_payload s = Ok payload)
    (payload_ascii : PyStr.isascii payload = true)
    (remains : Base64.keep_significant payload = Base64.b64encode data) :
  process_base64_image s w = (Ok data, w).
Proof.
  rewrite base64_payload_segment in stripped. inversion stripped as [E].
  rewrite process_base64_image_run, decode_or_422_run, E.
  rewrite <- (b64decode_keep_significant payload payload_ascii), remains.
  now rewrite (b64decode_b64encode data data_bytes).
Qed.

Lemma wrapped_base64_decodes_witness :
  process_base64_image
    ("data:image/gif;base64,R0lG" +:+ String (ascii_of_nat 10) "ODlh"
     +:+ String (ascii_of_nat 10) "")
    Stub.offline
  = (Ok [71; 73; 70; 56; 57; 97], Stub.offline).
Proof.
  exact (wrapped_base64_decodes
           ("data:image/gif;base64,R0lG" +:+ String (ascii_of_nat 10) "ODlh"
            +:+ String (ascii_of_nat 10) "")
           ("R0lG" +:+ String (ascii_of_nat 10) "ODlh"
            +:+ String (ascii_of_nat 10) "")
           [71; 73; 70; 56; 57; 97] Stub.offline
           bytes_GIF eq_refl eq_refl eq_refl).
Defined.

(** X11.  What [process_base64_image] returns is a sequence of bytes, each
    from 0 to 255, and the world is left as it was. *)
Theorem decoded_bytes_in_range
    (s : string) (w w' : World) (b : bytes)
    (decoded : process_base64_image s w = (Ok b, w')) :
  Forall Base64.is_byte b /\ w' = w.
Proof.
  rewrite process_base64_image_run, decode_or_422_run in decoded.
  unfold Base64.b64decode in decoded.
  destruct (PyStr.isascii (first_segment s)); [|discriminate].
  destruct (Base64.a2b_base64 (Base64.encode_ascii (first_segment s)))
    as [out|e] eqn:D; [|discriminate].
  inversion decoded; subst b w'. split; [|reflexivity].
  exact (a2b_loop_range _ 0 0 0 [] out (Forall_nil _) D).
Qed.

Lemma decoded_bytes_in_range_witness :
  Forall Base64.is_byte [71; 73; 70; 56; 57; 97].
Proof.
  exact (proj1 (decoded_bytes_in_range "data:image/gif;base64,R0lGODlh"
                  Stub.offline Stub.offline [71; 73; 70; 56; 57; 97] eq_refl)).
Defined.

(** X12.  The decoded image is never longer than three quarters of the
    input string. *)
Theorem decoded_size_bound
    (s : string) (w w' : World) (b : bytes)
    (decoded : process_base64_image s w = (Ok b, w')) :
  (4 * List.length b <= 3 * String.length s)%nat.
Proof.
  rewrite process_base64_image_run, decode_or_422_run in decoded.
  unfold Base64.b64decode in decoded.
  destruct (PyStr.isascii (first_segment s)); [|discriminate].
  destruct (Base64.a2b_base64 (Base64.encode_ascii (first_segment s)))
    as [out|e] eqn:D; [|discriminate].
  inversion decoded; subst b w'.
  apply (a2b_loop_size _ 0 0 0 [] out) in D; [|lia].
  rewrite encode_ascii_length in D.
  change ((4 - 0) mod 4) with 0 in D. cbn [List.length] in D.
  pose proof (first_segment_length s). lia.
Qed.

Lemma decoded_size_bound_witness :
  (4 * List.length [71; 73; 70; 56; 57; 97]
   <= 3 * String.length "data:image/gif;base64,R0lGODlh")%nat.
Proof.
  exact (decoded_size_bound "data:image/gif;base64,R0lGODlh"
           Stub.offline Stub.offline [71; 73; 70; 56; 57; 97] eq_refl).
Defined.

Lemma ord_inj_pad (c : ascii) :
  Ascii.eqb c "=" = false -> (PyStr.ord c =? Base64.BASE64_PAD) = false.
Proof.
  intros H. apply Z.eqb_neq. intros E. apply Ascii.eqb_neq in H. apply H.
  unfold PyStr.ord, Base64.BASE64_PAD in E.
  rewrite <- (ascii_N_embedding c).
  replace (N_of_ascii c) with 61%N by lia. reflexivity.
Qed.

Lemma no_pad_bytes (s : string) :
  PyStr.has_char "=" s = false ->
  forallb (fun c => negb (c =? Base64.BASE64_PAD)) (Base64.encode_ascii s)
  = true.
Proof.
  unfold Base64.encode_ascii.
  induction s as [|c s IH]; intros H; [reflexivity|].
  cbn [PyStr.has_char] in H. apply orb_false_iff in H as [Hc Hs].
  cbn [list_ascii_of_string map forallb].
  now rewrite (ord_inj_pad c Hc), (IH Hs).
Qed.

(** X13.  Padding may not be left out: an ASCII payload without ['='] is
    decoded exactly when its number of base64 digits is a multiple of 4. *)
Theorem unpadded_payload_needs_full_groups
    (s payload : string) (w : World)
    (stripped : base64_payload s = Ok payload)
    (payload_ascii : PyStr.isascii payload = true)
    (no_pad : PyStr.has_char "=" payload = false) :
  (exists b, process_base64_image s w = (Ok b, w))
  <-> Base64.digits (Base64.encode_ascii payload) mod 4 = 0.
Proof.
  rewrite base64_payload_segment in stripped. inversion stripped as [E].
  rewrite process_base64_image_run, decode_or_422_run, E.
  unfold Base64.b64decode, Base64.a2b_base64. rewrite payload_ascii.
  destruct (a2b_loop_unpadded (Base64.encode_ascii payload)
              (no_pad_bytes payload no_pad) 0 0 0 [])
    as [out Hout]; [lia|].
  rewrite Hout. rewrite Z.add_0_l.
  pose proof (Z.mod_pos_bound (Base64.digits (Base64.encode_ascii payload)) 4
                eq_refl) as Hm.
  unfold Base64.a2b_finish.
  destruct (Base64.digits (Base64.encode_ascii payload) mod 4 =? 0) eqn:E0.
  - apply Z.eqb_eq in E0. split; [intros _; exact E0 | intros _; now exists out].
  - apply Z.eqb_neq in E0. split; [|intros C; contradiction].
    intros [b Hb].
    destruct (Base64.digits (Base64.encode_ascii payload) mod 4 =? 1);
      discriminate.
Qed.

Lemma unpadded_payload_needs_full_groups_witness :
  (exists b, process_base64_image "QUJD" Stub.offline = (Ok b, Stub.offline))
  /\ ~ (exists b, process_base64_image "QUI" Stub.offline
                  = (Ok b, Stub.offline)).
Proof.
  split.
  - exact (proj2 (unpadded_payload_needs_full_groups "QUJD" "QUJD"
                    Stub.offline eq_refl eq_refl eq_refl) eq_refl).
  - intros H.
    pose proof (proj1 (unpadded_payload_needs_full_groups "QUI" "QUI"
                         Stub.offline eq_refl eq_refl eq_refl) H) as C.
    vm_compute in C. discriminate.
Defined.

(** X14.  [GET /examples] lists three request bodies; each one is accepted
    as an [EmbeddingRequest], and together they show every member of
    [InputType]. *)
Theorem examples_cover_input_types (R : Runtime) (w : World) :
  exists d,
    get_examples R w = (Ok d, w)
    /\ List.length d = 3%nat
    /\ Forall (fun entry =>
                 exists request, request_of_value (snd entry) = Some request) d
    /\ forall t : InputType,
        exists key v request,
          In (key, v) d
          /\ request_of_value v = Some request
          /\ type request = t.
Proof.
  eexists. split; [reflexivity|]. split; [reflexivity|]. split.
  - repeat (constructor; [eexists; reflexivity|]). constructor.
  - intros [| |]; do 3 eexists.
    + split; [left; reflexivity | split; reflexivity].
    + split; [right; left; reflexivity | split; reflexivity].
    + split; [right; right; left; reflexivity | split; reflexivity].
Qed.

(** X15.  The members of [InputType] and their string values correspond one
    to one: looking a member up by its value gives the member, and a string
    that names a member is that member's value.  Every other string is
    rejected. *)
Theorem InputType_value_round_trip :
  (forall t, InputType_of_value (InputType_value t) = Some t)
  /\ (forall s t, InputType_of_value s = Some t <-> s = InputType_value t).
Proof.
  split; [now intros [| |]|].
  intros s t. split.
  - unfold InputType_of_value.
    destruct (String.eqb s "text") eqn:E1;
      [apply String.eqb_eq in E1; intros H; inversion H; now subst|].
    destruct (String.eqb s "image_url") eqn:E2;
      [apply String.eqb_eq in E2; intros H; inversion H; now subst|].
    destruct (String.eqb s "image_base64") eqn:E3;
      [apply String.eqb_eq in E3; intros H; inversion H; now subst|].
    discriminate.
  - intros ->. now destruct t.
Qed.
